(** * Raworc Bench: token store, API gateway client, auth state controller
      and resource list controllers

    A shallow embedding of the client-side core of the dashboard
    (lib/cookies.ts, lib/api-client.ts, contexts/AuthContext.tsx,
    components/workspaces, components/sessions) and of the development
    backend mock-server.js, with the properties the specification states
    about them. *)

From stdpp Require Import gmap strings list.
From Stdlib Require Import ZArith DecimalString.

Local Open Scope string_scope.
Local Open Scope Z_scope.
Local Open Scope list_scope.

(* ===================================================================== *)
(** ** JavaScript primitives used by the sources *)
(* ===================================================================== *)

Module Js.

(** Truthiness of a [string | undefined] value: [undefined] and the
    empty string are falsy. *)
Definition truthy (v : option string) : bool :=
    match v with
    | Some s => negb (String.eqb s "")
    | None => false
    end.

(** [a || b] where [a : string | undefined] and [b] is a string. *)
Definition or_else (a : option string) (b : string) : string :=
    match a with
    | Some s => if String.eqb s "" then b else s
    | None => b
    end.

(** [s.includes(sub)]: [sub] occurs somewhere in [s]. *)
Fixpoint includes (s sub : string) : bool :=
    if String.prefix sub s then true
    else match s with
         | EmptyString => false
         | String _ rest => includes rest sub
         end.

(** [n.toString()] for an integer-valued number. *)
Definition toString (n : Z) : string :=
    NilEmpty.string_of_int (Z.to_int n).

(** A [Date] object: its time value in milliseconds, [None] for an
    Invalid Date (time value NaN). *)
Definition Date := option Z.

(** [a <= b] on dates compares the time values; any comparison with NaN
    is false. *)
Definition date_le (a b : Date) : bool :=
    match a, b with
    | Some x, Some y => x <=? y
    | _, _ => false
    end.

End Js.

(* ===================================================================== *)
(** ** Token Store (lib/cookies.ts) *)
(* ===================================================================== *)

(** The persisted store is the cookie jar as [Cookies.get] sees it: a
    finite map from cookie names to values.  Retention by the browser (a
    cookie disappearing once its own expiry passes) can only remove
    entries between two calls; the statements below about one call range
    over every jar. *)
Abbreviation CookieJar := (gmap string string).

Module COOKIE_CONFIG.
Definition TOKEN_KEY : string := "raworc_auth_token".
Definition EXPIRES_KEY : string := "raworc_token_expires".
End COOKIE_CONFIG.

(** The platform's [Date]: [new Date(s)] for a string [s] gives the parsed
    time value, [None] when the string does not parse (Invalid Date);
    [toISOString] formats a time value.  Both are the JavaScript engine's,
    not this repository's; they are taken as an interface. *)
Class Platform := {
  Date_parse : string -> Js.Date;
  Date_toISOString : Z -> string
}.

Module TokenManager.
Section WithPlatform.
Context {P : Platform}.

Definition setToken (token expiresAt : string) (jar : CookieJar) : CookieJar :=
  <[COOKIE_CONFIG.EXPIRES_KEY := expiresAt]>
    (<[COOKIE_CONFIG.TOKEN_KEY := token]> jar).

Definition clearToken (jar : CookieJar) : CookieJar :=
  delete COOKIE_CONFIG.EXPIRES_KEY (delete COOKIE_CONFIG.TOKEN_KEY jar).

(** [getToken()] at clock reading [now]: the returned value and the jar it
    leaves behind. *)
Definition getToken (now : Z) (jar : CookieJar) : option string * CookieJar :=
  let token := jar !! COOKIE_CONFIG.TOKEN_KEY in
  let expiresAt := jar !! COOKIE_CONFIG.EXPIRES_KEY in
  if negb (Js.truthy token) || negb (Js.truthy expiresAt) then (None, jar)
  else
    match token, expiresAt with
    | Some t, Some e =>
        if Js.date_le (Date_parse e) (Some now) then (None, clearToken jar)
        else (Some t, jar)
    | _, _ => (None, jar)
    end.

Definition isAuthenticated (now : Z) (jar : CookieJar) : bool * CookieJar :=
  let '(token, jar') := getToken now jar in
  (match token with Some _ => true | None => false end, jar').

Definition getTokenExpiration (jar : CookieJar) : option Js.Date :=
  match jar !! COOKIE_CONFIG.EXPIRES_KEY with
  | Some e => if String.eqb e "" then None else Some (Date_parse e)
  | None => None
  end.

Definition isTokenExpiringSoon (now : Z) (jar : CookieJar) : bool :=
  match getTokenExpiration jar with
  | None => false
  | Some expiration => Js.date_le expiration (Some (now + 5 * 60 * 1000))
  end.

Definition getAuthHeader (now : Z) (jar : CookieJar) : option string * CookieJar :=
  let '(token, jar') := getToken now jar in
  (match token with
   | Some t => if String.eqb t "" then None else Some ("Bearer " +:+ t)
   | None => None
   end, jar').

End WithPlatform.
End TokenManager.

(* ===================================================================== *)
(** ** API types (types/api.ts) *)
(* ===================================================================== *)

Module AuthResponse.
Record t := mk { token : string; token_type : string; expires_at : string }.
End AuthResponse.

Module LoginRequest.
Record t := mk { user : string; pass : string }.
End LoginRequest.

Module User.
Record t := mk
    { id : string; username : string; email : option string; roles : list string }.
End User.

Module Workspace.
Record t := mk
    { id : string; name : string; description : option string;
      created_at : string; updated_at : string }.

(** [Omit<Workspace, 'id' | 'created_at' | 'updated_at'>]: what the client
    sends when it creates a workspace. *)
Record input := mk_input { in_name : string; in_description : option string }.
End Workspace.

Module Status.
Inductive t := running | stopped | pending | error.

(** [a === b] on status strings. *)
Definition eqb (a b : t) : bool :=
  match a, b with
  | running, running | stopped, stopped | pending, pending | error, error => true
  | _, _ => false
  end.

(** The string a status is in the sources. *)
Definition name (a : t) : string :=
  match a with
  | running => "running"
  | stopped => "stopped"
  | pending => "pending"
  | error => "error"
  end.
End Status.

Module ContainerInfo.
Record t := mk
    { image : string; ports : list Z; environment : gmap string string }.
End ContainerInfo.

Module Session.
Record t := mk
    { id : string; workspace_id : string; name : string; status : Status.t;
      created_at : string; updated_at : string;
      container_info : option ContainerInfo.t }.

(** [Omit<Session, 'id' | 'workspace_id' | 'created_at' | 'updated_at'>]. *)
Record input := mk_input
    { in_name : string; in_status : Status.t;
      in_container_info : option ContainerInfo.t }.
End Session.

(** The payload of an error response, as far as the client looks into it:
    [responseData?.message]. *)
Module ErrorBody.
Record t := mk { message : option string }.
End ErrorBody.

(** [details?: any]: the error response's data or the request object. *)
Inductive Details :=
| DetailsData (data : option ErrorBody.t)
| DetailsRequest.

Module ApiError.
Record t := mk { message : string; code : string; details : option Details }.
End ApiError.

Module ApiResponse.
Record t (T : Type) := mk
    { data : option T; error : option ApiError.t; success : bool }.
Arguments mk {T}.
Arguments data {T}.
Arguments error {T}.
Arguments success {T}.

(** [response.success && response.data]: the data when both are truthy.
    The data types are objects and arrays, so data that is present is
    truthy. *)
Definition payload {T} (r : t T) : option T :=
    if success r then data r else None.

(** [response.error?.message || fallback]. *)
Definition message_or {T} (r : t T) (fallback : string) : string :=
    Js.or_else (ApiError.message <$> error r) fallback.
End ApiResponse.

(* ===================================================================== *)
(** ** Auth reducer (contexts/AuthContext.tsx) *)
(* ===================================================================== *)

Module AuthState.
Record t := mk
    { user : option User.t; isAuthenticated : bool; isLoading : bool;
      error : option string }.
End AuthState.

Inductive AuthAction :=
| AUTH_START
| AUTH_SUCCESS (payload : User.t)
| AUTH_ERROR (payload : string)
| AUTH_LOGOUT
| CLEAR_ERROR.

Definition initialState : AuthState.t :=
  {| AuthState.user := None; AuthState.isAuthenticated := false;
     AuthState.isLoading := true; AuthState.error := None |}.

Definition authReducer (state : AuthState.t) (action : AuthAction) : AuthState.t :=
  match action with
  | AUTH_START =>
      {| AuthState.user := AuthState.user state;
         AuthState.isAuthenticated := AuthState.isAuthenticated state;
         AuthState.isLoading := true;
         AuthState.error := None |}
  | AUTH_SUCCESS payload =>
      {| AuthState.user := Some payload;
         AuthState.isAuthenticated := true;
         AuthState.isLoading := false;
         AuthState.error := None |}
  | AUTH_ERROR payload =>
      {| AuthState.user := None;
         AuthState.isAuthenticated := false;
         AuthState.isLoading := false;
         AuthState.error := Some payload |}
  | AUTH_LOGOUT =>
      {| AuthState.user := None;
         AuthState.isAuthenticated := false;
         AuthState.isLoading := false;
         AuthState.error := None |}
  | CLEAR_ERROR =>
      {| AuthState.user := AuthState.user state;
         AuthState.isAuthenticated := AuthState.isAuthenticated state;
         AuthState.isLoading := AuthState.isLoading state;
         AuthState.error := None |}
  end.

(** The state after a sequence of dispatched actions. *)
Definition run_actions (s : AuthState.t) (actions : list AuthAction) : AuthState.t :=
  fold_left authReducer actions s.

(* ===================================================================== *)
(** ** The world the client runs in *)
(* ===================================================================== *)

Inductive Method := GET | POST | PUT | DELETE.

(** Request bodies the client sends. *)
Inductive RequestData :=
| LoginData (credentials : LoginRequest.t)
| ExternalAuthData (provider token : string)
| WorkspaceData (workspace : Workspace.input)
| WorkspacePatch (name description : option string)
| SessionData (session : Session.input).

(** The request configuration handed through the interceptors to the
    transport ([InternalAxiosRequestConfig]). *)
Module Config.
Record t := mk
  { method : Method; url : string; data : option RequestData;
    Authorization : option string; metadata : option Z }.
End Config.

(** What axios rejects with. *)
Module AxiosError.
Record response_t := mk_response { status : Z; data : option ErrorBody.t }.
Record t := mk
  { response : option response_t; request : bool; message : option string }.
End AxiosError.

(** How a dispatched request settles: fulfilled with the response body
    (a 2xx status), or rejected with an error. *)
Inductive Settled (T : Type) :=
| Fulfilled (data : T)
| Rejected (error : AxiosError.t).
Arguments Fulfilled {T}.
Arguments Rejected {T}.

(** The environment's answer to one request: the time that passes while it
    is in flight and how it settles. *)
Module Reply.
Record t (T : Type) := mk { latency : Z; outcome : Settled T }.
Arguments mk {T}.
Arguments latency {T}.
Arguments outcome {T}.
End Reply.

(** Everything the client code reads or writes outside its own component
    state.  [effect_state] is [Some s] once the AuthProvider's mount
    effect has run: the 'auth:logout' listener is registered and the
    interval callback exists, both closed over the render whose [state] was
    [s].  [events], [sent] and [dispatched] record, oldest first, the
    window events dispatched, the requests handed to the transport and the
    actions given to the auth reducer. *)
Module World.
Record t := mk
  { cookies : CookieJar;
    clock : Z;
    auth : AuthState.t;
    effect_state : option AuthState.t;
    events : list string;
    sent : list Config.t;
    dispatched : list AuthAction }.

Definition set_cookies (jar : CookieJar) (w : t) : t :=
  mk jar (clock w) (auth w) (effect_state w) (events w) (sent w) (dispatched w).
Definition set_clock (now : Z) (w : t) : t :=
  mk (cookies w) now (auth w) (effect_state w) (events w) (sent w) (dispatched w).
Definition set_auth (s : AuthState.t) (w : t) : t :=
  mk (cookies w) (clock w) s (effect_state w) (events w) (sent w) (dispatched w).
Definition set_effect_state (s : option AuthState.t) (w : t) : t :=
  mk (cookies w) (clock w) (auth w) s (events w) (sent w) (dispatched w).
Definition set_events (l : list string) (w : t) : t :=
  mk (cookies w) (clock w) (auth w) (effect_state w) l (sent w) (dispatched w).
Definition set_sent (l : list Config.t) (w : t) : t :=
  mk (cookies w) (clock w) (auth w) (effect_state w) (events w) l (dispatched w).
Definition set_dispatched (l : list AuthAction) (w : t) : t :=
  mk (cookies w) (clock w) (auth w) (effect_state w) (events w) (sent w) l.
End World.

(** Code that runs against the world. *)
Definition M (A : Type) : Type := World.t -> A * World.t.

Definition ret {A} (a : A) : M A := fun w => (a, w).

Definition bind {A B} (c : M A) (k : A -> M B) : M B :=
  fun w => let '(a, w') := c w in k a w'.

Declare Scope world_scope.
Delimit Scope world_scope with world.
Notation "'let*' x ':=' c 'in' k" := (bind c (fun x => k))
  (at level 10, x name, c at level 100, k at level 200) : world_scope.
Notation "'do*' c 'in' k" := (bind c (fun _ => k))
  (at level 10, c at level 100, k at level 200) : world_scope.
Local Open Scope world_scope.

(** [dispatch(action)] of the AuthProvider's [useReducer]. *)
Definition dispatch (action : AuthAction) : M unit :=
  fun w =>
    (tt, World.set_dispatched (World.dispatched w ++ [action])
           (World.set_auth (authReducer (World.auth w) action) w)).

(** [window.dispatchEvent(new CustomEvent(name))]: listeners run
    synchronously.  The only listener in the sources is the AuthProvider's
    [handleLogout] on 'auth:logout', present once the mount effect ran. *)
Definition dispatchEvent (name : string) : M unit :=
  fun w =>
    let w' := World.set_events (World.events w ++ [name]) w in
    match World.effect_state w with
    | Some _ => if String.eqb name "auth:logout" then dispatch AUTH_LOGOUT w'
                else (tt, w')
    | None => (tt, w')
    end.

Definition Date_now : M Z := fun w => (World.clock w, w).

(** The transport: the request is recorded, time passes, the reply's
    outcome comes back. *)
Definition transport {T} (config : Config.t) (reply : Reply.t T) : M (Settled T) :=
  fun w =>
    (Reply.outcome reply,
     World.set_clock (World.clock w + Reply.latency reply)
       (World.set_sent (World.sent w ++ [config]) w)).

(* ===================================================================== *)
(** ** API Gateway Client (lib/api-client.ts) *)
(* ===================================================================== *)

Module Health.
Record t := mk { status : string; timestamp : string }.
End Health.

Module Version.
Record t := mk { version : string; build : string }.
End Version.

Module apiClient.
Section WithPlatform.
Context {P : Platform}.

Definition publicEndpoints : list string :=
  ["/health"; "/version"; "/auth/internal"].

(** [publicEndpoints.some(endpoint => config.url?.includes(endpoint))]. *)
Definition isPublicEndpoint (url : string) : bool :=
  existsb (fun endpoint => Js.includes url endpoint) publicEndpoints.

Definition getAuthHeader : M (option string) :=
  fun w =>
    let '(h, jar) := TokenManager.getAuthHeader (World.clock w) (World.cookies w) in
    (h, World.set_cookies jar w).

Definition clearToken : M unit :=
  fun w => (tt, World.set_cookies (TokenManager.clearToken (World.cookies w)) w).

Definition setToken (token expiresAt : string) : M unit :=
  fun w =>
    (tt, World.set_cookies (TokenManager.setToken token expiresAt (World.cookies w)) w).

(** The request interceptor. *)
Definition requestInterceptor (config : Config.t) : M Config.t :=
  let* config1 :=
    (if negb (isPublicEndpoint (Config.url config)) then
       let* authHeader := getAuthHeader in
       match authHeader with
       | Some h =>
           ret (Config.mk (Config.method config) (Config.url config)
                  (Config.data config) (Some h) (Config.metadata config))
       | None => ret config
       end
     else ret config) in
  let* startTime := Date_now in
  ret (Config.mk (Config.method config1) (Config.url config1)
         (Config.data config1) (Config.Authorization config1) (Some startTime)).

(** [transformError]. *)
Definition transformError {T} (error : AxiosError.t) : ApiResponse.t T :=
  match AxiosError.response error with
  | Some response =>
      let responseData := AxiosError.data response in
      ApiResponse.mk None
        (Some (ApiError.mk
                 (Js.or_else (responseData ≫= ErrorBody.message)
                    (Js.or_else (AxiosError.message error) "Server error occurred"))
                 (Js.toString (AxiosError.status response))
                 (Some (DetailsData responseData))))
        false
  | None =>
      if AxiosError.request error then
        ApiResponse.mk None
          (Some (ApiError.mk "Network error - please check your connection"
                   "NETWORK_ERROR" (Some DetailsRequest)))
          false
      else
        ApiResponse.mk None
          (Some (ApiError.mk
                   (Js.or_else (AxiosError.message error) "Unknown error occurred")
                   "UNKNOWN_ERROR" None))
          false
  end.

(** [error.response?.status === 401]. *)
Definition is401 (error : AxiosError.t) : bool :=
  match AxiosError.response error with
  | Some response => AxiosError.status response =? 401
  | None => false
  end.

(** The response interceptor's error handler; its result is what the
    promise is rejected with. *)
Definition responseErrorInterceptor {T} (error : AxiosError.t) : M (ApiResponse.t T) :=
  do* (if is401 error then
         do* clearToken in dispatchEvent "auth:logout"
       else ret tt) in
  ret (transformError error).

(** [this.client.request(config)]: request interceptor, transport,
    response interceptors.  [inl] is a resolved promise (the response's
    data), [inr] a rejected one (the value thrown at the [await]). *)
Definition client_request {T} (config : Config.t) (reply : Reply.t T)
  : M (T + ApiResponse.t T) :=
  let* config' := requestInterceptor config in
  let* settled := transport config' reply in
  match settled with
  | Fulfilled data => ret (inl data)
  | Rejected error =>
      let* apiError := responseErrorInterceptor error in
      ret (inr apiError)
  end.

(** [request]: the generic method with its try/catch. *)
Definition request {T} (method : Method) (endpoint : string)
    (data : option RequestData) (reply : Reply.t T) : M (ApiResponse.t T) :=
  let* r := client_request (Config.mk method endpoint data None None) reply in
  match r with
  | inl data => ret (ApiResponse.mk (Some data) None true)
  | inr error => ret error
  end.

Definition login (credentials : LoginRequest.t) (reply : Reply.t AuthResponse.t)
  : M (ApiResponse.t AuthResponse.t) :=
  let* response := request POST "/auth/internal" (Some (LoginData credentials)) reply in
  do* (match ApiResponse.payload response with
       | Some data =>
           setToken (AuthResponse.token data) (AuthResponse.expires_at data)
       | None => ret tt
       end) in
  ret response.

Definition externalAuth (provider token : string) (reply : Reply.t AuthResponse.t)
  : M (ApiResponse.t AuthResponse.t) :=
  request POST "/auth/external" (Some (ExternalAuthData provider token)) reply.

Definition getCurrentUser (reply : Reply.t User.t) : M (ApiResponse.t User.t) :=
  request GET "/auth/me" None reply.

Definition logout : M unit :=
  do* clearToken in dispatchEvent "auth:logout".

Definition healthCheck (reply : Reply.t Health.t) : M (ApiResponse.t Health.t) :=
  request GET "/health" None reply.

Definition getVersion (reply : Reply.t Version.t) : M (ApiResponse.t Version.t) :=
  request GET "/version" None reply.

Definition getWorkspaces (reply : Reply.t (list Workspace.t))
  : M (ApiResponse.t (list Workspace.t)) :=
  request GET "/workspaces" None reply.

Definition getWorkspace (id : string) (reply : Reply.t Workspace.t)
  : M (ApiResponse.t Workspace.t) :=
  request GET ("/workspaces/" +:+ id) None reply.

Definition createWorkspace (workspace : Workspace.input) (reply : Reply.t Workspace.t)
  : M (ApiResponse.t Workspace.t) :=
  request POST "/workspaces" (Some (WorkspaceData workspace)) reply.

Definition updateWorkspace (id : string) (name description : option string)
    (reply : Reply.t Workspace.t) : M (ApiResponse.t Workspace.t) :=
  request PUT ("/workspaces/" +:+ id) (Some (WorkspacePatch name description)) reply.

Definition deleteWorkspace (id : string) (reply : Reply.t unit)
  : M (ApiResponse.t unit) :=
  request DELETE ("/workspaces/" +:+ id) None reply.

Definition getSessions (workspaceId : string) (reply : Reply.t (list Session.t))
  : M (ApiResponse.t (list Session.t)) :=
  request GET ("/workspaces/" +:+ workspaceId +:+ "/sessions") None reply.

Definition getSession (workspaceId sessionId : string) (reply : Reply.t Session.t)
  : M (ApiResponse.t Session.t) :=
  request GET ("/workspaces/" +:+ workspaceId +:+ "/sessions/" +:+ sessionId) None reply.

Definition createSession (workspaceId : string) (session : Session.input)
    (reply : Reply.t Session.t) : M (ApiResponse.t Session.t) :=
  request POST ("/workspaces/" +:+ workspaceId +:+ "/sessions")
    (Some (SessionData session)) reply.

Definition startSession (workspaceId sessionId : string) (reply : Reply.t Session.t)
  : M (ApiResponse.t Session.t) :=
  request POST ("/workspaces/" +:+ workspaceId +:+ "/sessions/" +:+ sessionId +:+ "/start")
    None reply.

Definition stopSession (workspaceId sessionId : string) (reply : Reply.t Session.t)
  : M (ApiResponse.t Session.t) :=
  request POST ("/workspaces/" +:+ workspaceId +:+ "/sessions/" +:+ sessionId +:+ "/stop")
    None reply.

Definition deleteSession (workspaceId sessionId : string) (reply : Reply.t unit)
  : M (ApiResponse.t unit) :=
  request DELETE ("/workspaces/" +:+ workspaceId +:+ "/sessions/" +:+ sessionId) None reply.

(** The remote operations of the public surface, indexed by the type of
    data each resolves to. *)
Inductive Operation : Type -> Type :=
| Login (credentials : LoginRequest.t) : Operation AuthResponse.t
| ExternalAuth (provider token : string) : Operation AuthResponse.t
| GetCurrentUser : Operation User.t
| HealthCheck : Operation Health.t
| GetVersion : Operation Version.t
| GetWorkspaces : Operation (list Workspace.t)
| GetWorkspace (id : string) : Operation Workspace.t
| CreateWorkspace (workspace : Workspace.input) : Operation Workspace.t
| UpdateWorkspace (id : string) (name description : option string) : Operation Workspace.t
| DeleteWorkspace (id : string) : Operation unit
| GetSessions (workspaceId : string) : Operation (list Session.t)
| GetSession (workspaceId sessionId : string) : Operation Session.t
| CreateSession (workspaceId : string) (session : Session.input) : Operation Session.t
| StartSession (workspaceId sessionId : string) : Operation Session.t
| StopSession (workspaceId sessionId : string) : Operation Session.t
| DeleteSession (workspaceId sessionId : string) : Operation unit.

(** Calling the method an operation names. *)
Definition call {T} (op : Operation T) : Reply.t T -> M (ApiResponse.t T) :=
  match op with
  | Login credentials => login credentials
  | ExternalAuth provider token => externalAuth provider token
  | GetCurrentUser => getCurrentUser
  | HealthCheck => healthCheck
  | GetVersion => getVersion
  | GetWorkspaces => getWorkspaces
  | GetWorkspace id => getWorkspace id
  | CreateWorkspace workspace => createWorkspace workspace
  | UpdateWorkspace id name description => updateWorkspace id name description
  | DeleteWorkspace id => deleteWorkspace id
  | GetSessions workspaceId => getSessions workspaceId
  | GetSession workspaceId sessionId => getSession workspaceId sessionId
  | CreateSession workspaceId session => createSession workspaceId session
  | StartSession workspaceId sessionId => startSession workspaceId sessionId
  | StopSession workspaceId sessionId => stopSession workspaceId sessionId
  | DeleteSession workspaceId sessionId => deleteSession workspaceId sessionId
  end.

End WithPlatform.
End apiClient.

(* ===================================================================== *)
(** ** Auth State Controller (contexts/AuthContext.tsx, AuthProvider) *)
(* ===================================================================== *)

(** The gateway never rejects (its [request] catches everything), so the
    [catch] branches of the handlers below cannot run; they are left out. *)
Module AuthProvider.
Section WithPlatform.
Context {P : Platform}.

Definition isAuthenticated : M bool :=
  fun w =>
    let '(b, jar) := TokenManager.isAuthenticated (World.clock w) (World.cookies w) in
    (b, World.set_cookies jar w).

Definition isTokenExpiringSoon : M bool :=
  fun w => (TokenManager.isTokenExpiringSoon (World.clock w) (World.cookies w), w).

Definition checkAuth (reply : Reply.t User.t) : M unit :=
  do* dispatch AUTH_START in
  let* valid := isAuthenticated in
  if negb valid then dispatch AUTH_LOGOUT
  else
    let* response := apiClient.getCurrentUser reply in
    match ApiResponse.payload response with
    | Some data => dispatch (AUTH_SUCCESS data)
    | None =>
        do* apiClient.clearToken in
        dispatch (AUTH_ERROR (ApiResponse.message_or response "Authentication failed"))
    end.

Definition login (credentials : LoginRequest.t)
    (loginReply : Reply.t AuthResponse.t) (userReply : Reply.t User.t) : M bool :=
  do* dispatch AUTH_START in
  let* response := apiClient.login credentials loginReply in
  match ApiResponse.payload response with
  | Some _ =>
      let* userResponse := apiClient.getCurrentUser userReply in
      match ApiResponse.payload userResponse with
      | Some data => do* dispatch (AUTH_SUCCESS data) in ret true
      | None => do* dispatch (AUTH_ERROR "Failed to get user information") in ret false
      end
  | None =>
      do* dispatch (AUTH_ERROR (ApiResponse.message_or response "Login failed")) in
      ret false
  end.

Definition logout : M unit :=
  do* apiClient.clearToken in dispatch AUTH_LOGOUT.

Definition clearError : M unit := dispatch CLEAR_ERROR.

(** The listener registered for 'auth:logout' (run by [dispatchEvent]). *)
Definition handleLogout : M unit := dispatch AUTH_LOGOUT.

(** First render: [useReducer(authReducer, initialState)]. *)
Definition firstRender : M unit :=
  fun w => (tt, World.set_auth initialState w).

(** The effect [useEffect(() => {...}, [])]: it runs once, after the first
    render; the listener and the interval callback it creates are closed
    over that render's [state].  [checkAuth] is started from it. *)
Definition mountEffect (reply : Reply.t User.t) : M unit :=
  fun w => checkAuth reply (World.set_effect_state (Some (World.auth w)) w).

Definition mount (reply : Reply.t User.t) : M unit :=
  do* firstRender in mountEffect reply.

(** One run of the [setInterval] callback.  [state] is the binding the
    callback closed over; [isTokenExpiringSoon] only logs a warning. *)
Definition tokenCheckInterval : M unit :=
  fun w =>
    match World.effect_state w with
    | None => (tt, w)
    | Some state =>
        (let* _soon := isTokenExpiringSoon in
         let* valid := isAuthenticated in
         if negb valid && AuthState.isAuthenticated state
         then dispatch AUTH_LOGOUT
         else ret tt) w
    end.

End WithPlatform.
End AuthProvider.

(* ===================================================================== *)
(** ** Workspace list controller (components/workspaces) *)
(* ===================================================================== *)

Module WorkspaceList.
Section WithPlatform.
Context {P : Platform}.

Record state := mk
  { workspaces : list Workspace.t; loading : bool; error : option string;
    showCreateModal : bool; refreshing : bool }.

Definition initial : state := mk [] true None false false.

Definition setWorkspaces (f : list Workspace.t -> list Workspace.t) (st : state) : state :=
  mk (f (workspaces st)) (loading st) (error st) (showCreateModal st) (refreshing st).
Definition setLoading (b : bool) (st : state) : state :=
  mk (workspaces st) b (error st) (showCreateModal st) (refreshing st).
Definition setError (e : option string) (st : state) : state :=
  mk (workspaces st) (loading st) e (showCreateModal st) (refreshing st).
Definition setShowCreateModal (b : bool) (st : state) : state :=
  mk (workspaces st) (loading st) (error st) b (refreshing st).
Definition setRefreshing (b : bool) (st : state) : state :=
  mk (workspaces st) (loading st) (error st) (showCreateModal st) b.

Definition loadWorkspaces (reply : Reply.t (list Workspace.t)) (st : state) : M state :=
  let st1 := setError None st in
  let* response := apiClient.getWorkspaces reply in
  let st2 :=
    match ApiResponse.payload response with
    | Some data => setWorkspaces (fun _ => data) st1
    | None =>
        setError (Some (ApiResponse.message_or response "Failed to load workspaces")) st1
    end in
  ret (setLoading false st2).

Definition handleRefresh (reply : Reply.t (list Workspace.t)) (st : state) : M state :=
  let* st1 := loadWorkspaces reply (setRefreshing true st) in
  ret (setRefreshing false st1).

(** The handlers end with [onWorkspaceChange?.()], a callback of the parent
    that does not touch this component's state. *)
Definition handleWorkspaceCreated (newWorkspace : Workspace.t) (st : state) : state :=
  setShowCreateModal false (setWorkspaces (fun prev => prev ++ [newWorkspace]) st).

Definition handleWorkspaceUpdated (updatedWorkspace : Workspace.t) (st : state) : state :=
  setWorkspaces
    (fun prev =>
       map (fun workspace =>
              if String.eqb (Workspace.id workspace) (Workspace.id updatedWorkspace)
              then updatedWorkspace else workspace) prev) st.

Definition handleWorkspaceDeleted (deletedWorkspaceId : string) (st : state) : state :=
  setWorkspaces
    (fun prev =>
       List.filter
         (fun workspace => negb (String.eqb (Workspace.id workspace) deletedWorkspaceId))
         prev) st.

End WithPlatform.
End WorkspaceList.

Module CreateWorkspaceModal.
Section WithPlatform.
Context {P : Platform}.

Record state := mk { loading : bool; errors : gmap string string }.

(** [handleSubmit].  [newErrors] is what [validateForm] computed from the
    form and [workspace] the request body built from the trimmed form
    fields.  The parent's [onSuccess] is the list's
    [handleWorkspaceCreated]. *)
Definition handleSubmit (newErrors : gmap string string) (workspace : Workspace.input)
    (reply : Reply.t Workspace.t) (modal : state) (list : WorkspaceList.state)
  : M (state * WorkspaceList.state) :=
  let modal1 := mk (loading modal) newErrors in
  if negb (size newErrors =? 0)%nat then ret (modal1, list)
  else
    let modal2 := mk true (errors modal1) in
    let* response := apiClient.createWorkspace workspace reply in
    match ApiResponse.payload response with
    | Some data =>
        ret (mk false (errors modal2), WorkspaceList.handleWorkspaceCreated data list)
    | None =>
        ret (mk false
               {[ "submit" := ApiResponse.message_or response "Failed to create workspace" ]},
             list)
    end.

End WithPlatform.
End CreateWorkspaceModal.

Module WorkspaceCard.
Section WithPlatform.
Context {P : Platform}.

Record state := mk { showMenu : bool; isDeleting : bool }.

(** [handleDelete].  [confirmed] is the user's answer to the [confirm]
    dialog; the first component of the result is the message passed to
    [alert], if any.  The parent's [onDelete] is the list's
    [handleWorkspaceDeleted]. *)
Definition handleDelete (confirmed : bool) (workspace : Workspace.t)
    (reply : Reply.t unit) (card : state) (list : WorkspaceList.state)
  : M (option string * state * WorkspaceList.state) :=
  if negb confirmed then ret (None, card, list)
  else
    let* response := apiClient.deleteWorkspace (Workspace.id workspace) reply in
    if ApiResponse.success response then
      ret (None, mk false false,
           WorkspaceList.handleWorkspaceDeleted (Workspace.id workspace) list)
    else
      ret (Some (ApiResponse.message_or response "Failed to delete workspace"),
           mk false false, list).

End WithPlatform.
End WorkspaceCard.

(* ===================================================================== *)
(** ** Session list controller (components/sessions/SessionManager.tsx) *)
(* ===================================================================== *)

Module SessionManager.
Section WithPlatform.
Context {P : Platform}.

Record state := mk
  { sessions : list Session.t; loading : bool; error : option string;
    showCreateModal : bool; refreshing : bool }.

Definition initial : state := mk [] true None false false.

Definition setSessions (f : list Session.t -> list Session.t) (st : state) : state :=
  mk (f (sessions st)) (loading st) (error st) (showCreateModal st) (refreshing st).
Definition setLoading (b : bool) (st : state) : state :=
  mk (sessions st) b (error st) (showCreateModal st) (refreshing st).
Definition setError (e : option string) (st : state) : state :=
  mk (sessions st) (loading st) e (showCreateModal st) (refreshing st).
Definition setShowCreateModal (b : bool) (st : state) : state :=
  mk (sessions st) (loading st) (error st) b (refreshing st).

(** [loadSessions(silent)]; [workspace] is the component's prop. *)
Definition loadSessions (workspace : option Workspace.t) (silent : bool)
    (reply : Reply.t (list Session.t)) (st : state) : M state :=
  match workspace with
  | None => ret st
  | Some workspace =>
      let st1 := if negb silent then setError None st else st in
      let* response := apiClient.getSessions (Workspace.id workspace) reply in
      let st2 :=
        match ApiResponse.payload response with
        | Some data => setSessions (fun _ => data) st1
        | None =>
            if negb silent
            then setError
                   (Some (ApiResponse.message_or response "Failed to load sessions")) st1
            else st1
        end in
      ret (setLoading false st2)
  end.

Definition handleSessionCreated (newSession : Session.t) (st : state) : state :=
  setShowCreateModal false (setSessions (fun prev => prev ++ [newSession]) st).

Definition handleSessionUpdated (updatedSession : Session.t) (st : state) : state :=
  setSessions
    (fun prev =>
       map (fun session =>
              if String.eqb (Session.id session) (Session.id updatedSession)
              then updatedSession else session) prev) st.

Definition handleSessionDeleted (deletedSessionId : string) (st : state) : state :=
  setSessions
    (fun prev =>
       List.filter
         (fun session => negb (String.eqb (Session.id session) deletedSessionId))
         prev) st.

(** The body of the [for ... of] loops of [handleStartAll] and
    [handleStopAll]: one call of [api] per element, awaited before the next
    starts; a successful response is handed to [handleSessionUpdated].
    The gateway never rejects, so the loop's [catch] cannot run; a failed
    call just has no payload.  [replies k] is the environment's answer to
    the [k]-th call of the loop, [k] counting from the given start. *)
Fixpoint forEachSession
    (api : string -> Reply.t Session.t -> M (ApiResponse.t Session.t))
    (replies : nat -> Reply.t Session.t) (k : nat)
    (selected : list Session.t) (st : state) : M state :=
  match selected with
  | [] => ret st
  | session :: rest =>
      let* response := api (Session.id session) (replies k) in
      let st' :=
        match ApiResponse.payload response with
        | Some data => handleSessionUpdated data st
        | None => st
        end in
      forEachSession api replies (S k) rest st'
  end.

Definition handleStartAll (workspace : option Workspace.t)
    (replies : nat -> Reply.t Session.t) (st : state) : M state :=
  match workspace with
  | None => ret st
  | Some workspace =>
      let stoppedSessions :=
        List.filter (fun session => Status.eqb (Session.status session) Status.stopped)
          (sessions st) in
      forEachSession (apiClient.startSession (Workspace.id workspace))
        replies 0%nat stoppedSessions st
  end.

Definition handleStopAll (workspace : option Workspace.t)
    (replies : nat -> Reply.t Session.t) (st : state) : M state :=
  match workspace with
  | None => ret st
  | Some workspace =>
      let runningSessions :=
        List.filter (fun session => Status.eqb (Session.status session) Status.running)
          (sessions st) in
      forEachSession (apiClient.stopSession (Workspace.id workspace))
        replies 0%nat runningSessions st
  end.

Definition setRefreshing (b : bool) (st : state) : state :=
  mk (sessions st) (loading st) (error st) (showCreateModal st) b.

Definition handleRefresh (workspace : option Workspace.t)
    (reply : Reply.t (list Session.t)) (st : state) : M state :=
  let* st1 := loadSessions workspace false reply (setRefreshing true st) in
  ret (setRefreshing false st1).

(** [statusCounts]: the [reduce] that counts the sessions per status
    string, starting from the empty object. *)
Definition statusCounts (sessions : list Session.t) : gmap string nat :=
  fold_left
    (fun acc session =>
       <[Status.name (Session.status session) :=
           (default 0%nat (acc !! Status.name (Session.status session)) + 1)%nat]> acc)
    sessions ∅.

(** [statusCounts.running || 0] and the like, as the Status Summary shows
    them. *)
Definition shownCount (sessions : list Session.t) (status : Status.t) : nat :=
  default 0%nat (statusCounts sessions !! Status.name status).

(** [sessions.some(s => s.status === 'stopped')]: the Start All button is
    rendered. *)
Definition showStartAll (st : state) : bool :=
  existsb (fun s => Status.eqb (Session.status s) Status.stopped) (sessions st).

(** [sessions.some(s => s.status === 'running')]: the Stop All button is
    rendered. *)
Definition showStopAll (st : state) : bool :=
  existsb (fun s => Status.eqb (Session.status s) Status.running) (sessions st).

End WithPlatform.
End SessionManager.

(* ===================================================================== *)
(** ** Session card and create-session modal
       (components/sessions/SessionCard.tsx, CreateSessionModal.tsx) *)
(* ===================================================================== *)

Module SessionCard.
Section WithPlatform.
Context {P : Platform}.

Record state := mk { showMenu : bool; actionLoading : option string }.

Definition canStart (session : Session.t) : bool :=
  Status.eqb (Session.status session) Status.stopped.

Definition canStop (session : Session.t) : bool :=
  Status.eqb (Session.status session) Status.running.

(** [handleStart]; the first component of the result is the message
    passed to [alert], if any.  The parent's [onUpdate] is the session
    list's [handleSessionUpdated]. *)
Definition handleStart (workspace : Workspace.t) (session : Session.t)
    (reply : Reply.t Session.t) (card : state) (list : SessionManager.state)
  : M (option string * state * SessionManager.state) :=
  let* response :=
    apiClient.startSession (Workspace.id workspace) (Session.id session) reply in
  match ApiResponse.payload response with
  | Some data =>
      ret (None, mk (showMenu card) None, SessionManager.handleSessionUpdated data list)
  | None =>
      ret (Some (ApiResponse.message_or response "Failed to start session"),
           mk (showMenu card) None, list)
  end.

Definition handleStop (workspace : Workspace.t) (session : Session.t)
    (reply : Reply.t Session.t) (card : state) (list : SessionManager.state)
  : M (option string * state * SessionManager.state) :=
  let* response :=
    apiClient.stopSession (Workspace.id workspace) (Session.id session) reply in
  match ApiResponse.payload response with
  | Some data =>
      ret (None, mk (showMenu card) None, SessionManager.handleSessionUpdated data list)
  | None =>
      ret (Some (ApiResponse.message_or response "Failed to stop session"),
           mk (showMenu card) None, list)
  end.

(** [handleDelete]; [confirmed] is the user's answer to the [confirm]
    dialog.  The parent's [onDelete] is the session list's
    [handleSessionDeleted]. *)
Definition handleDelete (confirmed : bool) (workspace : Workspace.t)
    (session : Session.t) (reply : Reply.t unit) (card : state)
    (list : SessionManager.state)
  : M (option string * state * SessionManager.state) :=
  if negb confirmed then ret (None, card, list)
  else
    let* response :=
      apiClient.deleteSession (Workspace.id workspace) (Session.id session) reply in
    if ApiResponse.success response then
      ret (None, mk false None,
           SessionManager.handleSessionDeleted (Session.id session) list)
    else
      ret (Some (ApiResponse.message_or response "Failed to delete session"),
           mk false None, list).

End WithPlatform.
End SessionCard.

Module CreateSessionModal.
Section WithPlatform.
Context {P : Platform}.

Record state := mk { loading : bool; errors : gmap string string }.

(** [handleSubmit].  [newErrors] is what [validateForm] computed from the
    form; [name] and [image] are the trimmed form fields, [ports] the
    parsed port numbers and [environment] the object built from the
    environment rows.  The status of the session data is the literal
    'stopped'.  The parent's [onSuccess] is the session list's
    [handleSessionCreated]. *)
Definition handleSubmit (newErrors : gmap string string)
    (name image : string) (ports : list Z) (environment : gmap string string)
    (workspace : Workspace.t) (reply : Reply.t Session.t)
    (modal : state) (list : SessionManager.state)
  : M (state * SessionManager.state) :=
  let modal1 := mk (loading modal) newErrors in
  if negb (size newErrors =? 0)%nat then ret (modal1, list)
  else
    let modal2 := mk true (errors modal1) in
    let sessionData :=
      Session.mk_input name Status.stopped
        (Some (ContainerInfo.mk image ports environment)) in
    let* response := apiClient.createSession (Workspace.id workspace) sessionData reply in
    match ApiResponse.payload response with
    | Some data =>
        ret (mk false (errors modal2), SessionManager.handleSessionCreated data list)
    | None =>
        ret (mk false
               {[ "submit" := ApiResponse.message_or response "Failed to create session" ]},
             list)
    end.

End WithPlatform.
End CreateSessionModal.

(* ===================================================================== *)
(** ** Development backend (mock-server.js) *)
(* ===================================================================== *)

Module MockServer.

(** What a handler answers: [res.json(body)] or
    [res.status(code).json({message})]. *)
Inductive Response (T : Type) :=
| Json (body : T)
| StatusJson (code : Z) (body : ErrorBody.t).
Arguments Json {T}.
Arguments StatusJson {T}.

(** The two module-level variables [workspaces] and [sessions]. *)
Record db := mk
  { workspaces : list Workspace.t; sessions : gmap string (list Session.t) }.

Section WithPlatform.
Context {P : Platform}.

Definition initial : db :=
  mk [ Workspace.mk "ws-1" "Development Environment"
         (Some "Main development workspace")
         "2024-01-15T10:00:00Z" "2024-01-15T10:00:00Z";
       Workspace.mk "ws-2" "Testing Environment"
         (Some "QA and testing workspace")
         "2024-01-16T10:00:00Z" "2024-01-16T10:00:00Z" ]
     (<["ws-1" :=
          [ Session.mk "sess-1" "ws-1" "Web Server" Status.running
              "2024-01-15T11:00:00Z" "2024-01-15T11:00:00Z"
              (Some (ContainerInfo.mk "nginx:latest" [80; 443]
                       {[ "ENV" := "development" ]}));
            Session.mk "sess-2" "ws-1" "Database" Status.stopped
              "2024-01-15T11:30:00Z" "2024-01-15T11:30:00Z"
              (Some (ContainerInfo.mk "postgres:14" [5432]
                       {[ "POSTGRES_DB" := "testdb" ]})) ]]>
        (<["ws-2" := []]> ∅)).

(** GET /workspaces *)
Definition get_workspaces (d : db) : db * Response (list Workspace.t) :=
  (d, Json (workspaces d)).

(** POST /workspaces, at clock reading [now]; [body] is [req.body] as the
    client sends it (name and optional description, no id). *)
Definition post_workspaces (now : Z) (body : Workspace.input) (d : db)
  : db * Response Workspace.t :=
  let newWorkspace :=
    Workspace.mk ("ws-" +:+ Js.toString now)
      (Workspace.in_name body) (Workspace.in_description body)
      (Date_toISOString now) (Date_toISOString now) in
  (mk (workspaces d ++ [newWorkspace]) (sessions d), Json newWorkspace).

(** DELETE /workspaces/:id *)
Definition delete_workspace (id : string) (d : db) : db * Response unit :=
  (mk (List.filter (fun ws => negb (String.eqb (Workspace.id ws) id)) (workspaces d))
      (sessions d),
   Json tt).

(** GET /workspaces/:workspaceId/sessions *)
Definition get_sessions (workspaceId : string) (d : db)
  : db * Response (list Session.t) :=
  (d, Json (default [] (sessions d !! workspaceId))).

(** Assignment to fields of the object [find] returned: the first element
    the predicate holds of is updated in place. *)
Fixpoint update_first {A} (p : A -> bool) (f : A -> A) (l : list A) : list A :=
  match l with
  | [] => []
  | x :: rest => if p x then f x :: rest else x :: update_first p f rest
  end.

Definition set_status (status : Status.t) (now : Z) (s : Session.t) : Session.t :=
  Session.mk (Session.id s) (Session.workspace_id s) (Session.name s) status
    (Session.created_at s) (Date_toISOString now) (Session.container_info s).

(** The common shape of the start and stop handlers. *)
Definition post_session_status (status : Status.t) (now : Z)
    (workspaceId sessionId : string) (d : db) : db * Response Session.t :=
  let workspaceSessions := default [] (sessions d !! workspaceId) in
  let is_it := fun s => String.eqb (Session.id s) sessionId in
  match List.find is_it workspaceSessions with
  | Some session =>
      (mk (workspaces d)
          (<[workspaceId := update_first is_it (set_status status now) workspaceSessions]>
             (sessions d)),
       Json (set_status status now session))
  | None => (d, StatusJson 404 (ErrorBody.mk (Some "Session not found")))
  end.

(** POST /workspaces/:workspaceId/sessions/:sessionId/start *)
Definition post_session_start := post_session_status Status.running.


(** How axios settles on a handler's answer.  [res.json] alone answers
    with status 200 and fulfils; the handlers set a status only to 401 or
    404, which rejects with the response attached. *)
Definition settle {T} (r : Response T) : Settled T :=
  match r with
  | Json body => Fulfilled body
  | StatusJson code body =>
      Rejected (AxiosError.mk (Some (AxiosError.mk_response code (Some body))) true
                  (Some ("Request failed with status code " +:+ Js.toString code)))
  end.

(** POST /auth/internal, at clock reading [now]. *)
Definition post_auth_internal (now : Z) (body : LoginRequest.t)
  : Response AuthResponse.t :=
  if String.eqb (LoginRequest.user body) "admin"
     && String.eqb (LoginRequest.pass body) "password"
  then Json (AuthResponse.mk "mock-jwt-token-12345" "Bearer"
               (Date_toISOString (now + 24 * 60 * 60 * 1000)))
  else StatusJson 401 (ErrorBody.mk (Some "Invalid credentials")).

(** GET /auth/me; [auth] is [req.headers.authorization]. *)
Definition get_auth_me (auth : option string) : Response User.t :=
  match auth with
  | Some header =>
      if String.eqb header "Bearer mock-jwt-token-12345"
      then Json (User.mk "user-1" "admin" (Some "admin@example.com") ["admin"; "user"])
      else StatusJson 401 (ErrorBody.mk (Some "Unauthorized"))
  | None => StatusJson 401 (ErrorBody.mk (Some "Unauthorized"))
  end.

(** GET /health and GET /version *)
Definition get_health (now : Z) : Response Health.t :=
  Json (Health.mk "healthy" (Date_toISOString now)).

Definition get_version : Response Version.t :=
  Json (Version.mk "1.0.0" "mock-build-123").



End WithPlatform.
End MockServer.

(* ===================================================================== *)
(** ** Sample data for the examples *)
(* ===================================================================== *)

(** A platform that knows two instants, enough to run the examples:
    2024-01-15T10:00:00Z and 2024-01-16T10:00:00Z. *)
Definition sample_parse (s : string) : Js.Date :=
  if String.eqb s "2024-01-15T10:00:00Z" || String.eqb s "2024-01-15T10:00:00.000Z"
  then Some 1705312800000
  else if String.eqb s "2024-01-16T10:00:00Z" || String.eqb s "2024-01-16T10:00:00.000Z"
  then Some 1705399200000
  else None.

Definition sample_toISOString (t : Z) : string :=
  if t =? 1705312800000 then "2024-01-15T10:00:00.000Z"
  else if t =? 1705399200000 then "2024-01-16T10:00:00.000Z"
  else "".

Definition sample_platform : Platform :=
  {| Date_parse := sample_parse; Date_toISOString := sample_toISOString |}.

(** A jar with a token but no expiry entry. *)
Definition orphan_jar : CookieJar := {[ COOKIE_CONFIG.TOKEN_KEY := "abc" ]}.

(** A jar holding the mock server's token, valid until 2024-01-16T10:00Z. *)
Definition valid_jar : CookieJar :=
  TokenManager.setToken "mock-jwt-token-12345" "2024-01-16T10:00:00.000Z" ∅.

Definition admin : User.t :=
  User.mk "user-1" "admin" (Some "admin@example.com") ["admin"; "user"].

(** A world at 2024-01-15T10:00:00Z in which nothing has happened yet. *)
Definition fresh_world (jar : CookieJar) : World.t :=
  World.mk jar 1705312800000 initialState None [] [] [].

(** A reply rejected with the given status and message payload. *)
Definition rejected_with {T} (status : Z) (message : string) : Reply.t T :=
  Reply.mk 10
    (Rejected (AxiosError.mk
                 (Some (AxiosError.mk_response status (Some (ErrorBody.mk (Some message)))))
                 true (Some ("Request failed with status code " +:+ Js.toString status)))).

(** The reducer's invariant: authenticated exactly when a user is held, and
    no error message while authenticated. *)
Definition auth_inv (s : AuthState.t) : Prop :=
  (AuthState.isAuthenticated s = true <-> AuthState.user s <> None) /\
  (AuthState.isAuthenticated s = true -> AuthState.error s = None).

(** The mock server's login answer, valid until 2024-01-16T10:00:00Z. *)
Definition sample_auth : AuthResponse.t :=
  AuthResponse.mk "mock-jwt-token-12345" "Bearer" "2024-01-16T10:00:00.000Z".

(** A session in the browser: the provider mounts with an empty token
    store, then the user logs in as admin and both calls are fulfilled. *)
Definition after_login : World.t :=
  snd (@AuthProvider.login sample_platform (LoginRequest.mk "admin" "password")
         (Reply.mk 10 (Fulfilled sample_auth)) (Reply.mk 10 (Fulfilled admin))
         (snd (@AuthProvider.mount sample_platform
                 (rejected_with 401 "Unauthorized") (fresh_world ∅)))).

(** The same session after another tab has logged out: the cookies are
    gone. *)
Definition logged_out_elsewhere : World.t := World.set_cookies ∅ after_login.

(** The same session once the token's expiry has been reached. *)
Definition at_expiry : World.t := World.set_clock 1705399200000 after_login.

(** The local collection after the replies to the calls for [selected]
    have been applied in order: a fulfilled reply replaces every element
    that has the returned session's id, a rejected one changes nothing. *)
Fixpoint apply_replies (replies : nat -> Reply.t Session.t) (k : nat)
    (selected : list Session.t) (sessions : list Session.t) : list Session.t :=
  match selected with
  | [] => sessions
  | _ :: rest =>
      apply_replies replies (S k) rest
        match Reply.outcome (replies k) with
        | Fulfilled updated =>
            map (fun session =>
                   if String.eqb (Session.id session) (Session.id updated)
                   then updated else session) sessions
        | Rejected _ => sessions
        end
  end.

(** The session list showing the development backend's sessions of ws-1. *)
Definition mock_ws1_list : SessionManager.state :=
  SessionManager.mk
    (default [] (MockServer.sessions (@MockServer.initial) !! "ws-1"))
    false None false false.

(** Every call answered as the development backend answers a start of
    sess-2 on its initial data. *)
Definition mock_start_sess2 (k : nat) : Reply.t Session.t :=
  Reply.mk 10
    (MockServer.settle
       (snd (@MockServer.post_session_start sample_platform
               1705312800000 "ws-1" "sess-2" (@MockServer.initial)))).



(** A computation that leaves the registered effect closure alone. *)
Definition keeps_effect {A} (c : M A) : Prop :=
  forall w, World.effect_state (snd (c w)) = World.effect_state w.

(* ===================================================================== *)
(** * Properties *)
(* ===================================================================== *)

(** ** The auth reducer *)

Lemma auth_inv_initial : auth_inv initialState.
Proof. split; cbn; [split; [discriminate | congruence] | discriminate]. Qed.

Lemma auth_inv_step (s : AuthState.t) (a : AuthAction) :
  auth_inv s -> auth_inv (authReducer s a).
Proof.
  intros [Hu He].
  destruct a; cbn; split; cbn; try tauto;
    try (split; [discriminate | congruence]);
    try discriminate; try (split; [congruence | reflexivity]).
Qed.

Lemma auth_inv_run (actions : list AuthAction) (s : AuthState.t) :
  auth_inv s -> auth_inv (run_actions s actions).
Proof.
  revert s. induction actions as [|a actions IH]; intros s Hs; cbn.
  - exact Hs.
  - apply IH, auth_inv_step, Hs.
Qed.

(** C10. Whatever sequence of actions the auth reducer is given from the
    initial state, the state it reaches has [isAuthenticated] true exactly
    when [user] is non-null, and has a null [error] whenever
    [isAuthenticated] is true. *)
Theorem authReducer_invariant (actions : list AuthAction) :
  (AuthState.isAuthenticated (run_actions initialState actions) = true <->
   AuthState.user (run_actions initialState actions) <> None) /\
  (AuthState.isAuthenticated (run_actions initialState actions) = true ->
   AuthState.error (run_actions initialState actions) = None).
Proof. exact (auth_inv_run actions initialState auth_inv_initial). Qed.

(** ** The token store *)

Section TokenStore.
Context {P : Platform}.

Lemma truthy_Some (v : option string) :
  Js.truthy v = true <-> exists s, v = Some s /\ s <> "".
Proof.
  destruct v as [s|]; cbn.
  - destruct (String.eqb_spec s ""); cbn; split.
    + discriminate.
    + intros (s' & [= <-] & Hne). contradiction.
    + eauto.
    + reflexivity.
  - split; [discriminate | intros (s & [=] & _)].
Qed.

Lemma date_le_false (e : Js.Date) (now : Z) :
  Js.date_le e (Some now) = false <-> forall ts, e = Some ts -> now < ts.
Proof.
  destruct e as [x|]; cbn.
  - rewrite Z.leb_gt. split.
    + intros H ts [= <-]. exact H.
    + intros H. apply H. reflexivity.
  - split; [intros _ ts [=] | reflexivity].
Qed.

Lemma clearToken_lookup (jar : CookieJar) :
  TokenManager.clearToken jar !! COOKIE_CONFIG.TOKEN_KEY = None /\
  TokenManager.clearToken jar !! COOKIE_CONFIG.EXPIRES_KEY = None.
Proof.
  unfold TokenManager.clearToken. split.
  - rewrite lookup_delete_ne by discriminate. apply lookup_delete_eq.
  - apply lookup_delete_eq.
Qed.

(** [getToken] by cases on the jar. *)
Lemma getToken_cases (now : Z) (jar : CookieJar) :
  (exists t e, jar !! COOKIE_CONFIG.TOKEN_KEY = Some t /\ t <> "" /\
               jar !! COOKIE_CONFIG.EXPIRES_KEY = Some e /\ e <> "" /\
               Js.date_le (Date_parse e) (Some now) = false /\
               TokenManager.getToken now jar = (Some t, jar)) \/
  (exists t e, jar !! COOKIE_CONFIG.TOKEN_KEY = Some t /\ t <> "" /\
               jar !! COOKIE_CONFIG.EXPIRES_KEY = Some e /\ e <> "" /\
               Js.date_le (Date_parse e) (Some now) = true /\
               TokenManager.getToken now jar = (None, TokenManager.clearToken jar)) \/
  ((Js.truthy (jar !! COOKIE_CONFIG.TOKEN_KEY) = false \/
    Js.truthy (jar !! COOKIE_CONFIG.EXPIRES_KEY) = false) /\
   TokenManager.getToken now jar = (None, jar)).
Proof.
  unfold TokenManager.getToken.
  destruct (Js.truthy (jar !! COOKIE_CONFIG.TOKEN_KEY)) eqn:Ht; cbn [negb orb].
  - destruct (Js.truthy (jar !! COOKIE_CONFIG.EXPIRES_KEY)) eqn:He; cbn [negb].
    + apply truthy_Some in Ht as (t & Ht & Hnt).
      apply truthy_Some in He as (e & He & Hne).
      rewrite Ht, He.
      destruct (Js.date_le (Date_parse e) (Some now)) eqn:Hle.
      * right; left. exists t, e. auto 10.
      * left. exists t, e. auto 10.
    + right; right. auto.
  - right; right. auto.
Qed.

(** C2, as the code has it.  Take any store whose expiry entry, when
    present, parses as a timestamp.  [getToken] returns the stored token
    exactly when a non-empty token entry and a non-empty expiry entry are
    both present and the expiry timestamp is strictly in the future, and
    then leaves the store as it is.  When both entries are present and the
    expiry is not in the future it returns absent and removes both
    entries.  When the token or the expiry entry is missing it returns
    absent and leaves the store unchanged.  [isAuthenticated] is true
    exactly in the first case, and at or after the expiry it is false and
    leaves neither entry. *)
Theorem getToken_spec (now : Z) (jar : CookieJar)
    (Hparse : forall e, jar !! COOKIE_CONFIG.EXPIRES_KEY = Some e -> e <> "" ->
                        is_Some (Date_parse e)) :
  (forall t,
     fst (TokenManager.getToken now jar) = Some t <->
     jar !! COOKIE_CONFIG.TOKEN_KEY = Some t /\ t <> "" /\
     exists e ts, jar !! COOKIE_CONFIG.EXPIRES_KEY = Some e /\ e <> "" /\
                  Date_parse e = Some ts /\ now < ts) /\
  (is_Some (fst (TokenManager.getToken now jar)) ->
   snd (TokenManager.getToken now jar) = jar) /\
  (forall t e ts,
     jar !! COOKIE_CONFIG.TOKEN_KEY = Some t -> t <> "" ->
     jar !! COOKIE_CONFIG.EXPIRES_KEY = Some e -> e <> "" ->
     Date_parse e = Some ts -> ts <= now ->
     TokenManager.getToken now jar = (None, TokenManager.clearToken jar) /\
     TokenManager.isAuthenticated now jar = (false, TokenManager.clearToken jar) /\
     TokenManager.clearToken jar !! COOKIE_CONFIG.TOKEN_KEY = None /\
     TokenManager.clearToken jar !! COOKIE_CONFIG.EXPIRES_KEY = None) /\
  (Js.truthy (jar !! COOKIE_CONFIG.TOKEN_KEY) = false \/
   Js.truthy (jar !! COOKIE_CONFIG.EXPIRES_KEY) = false ->
   TokenManager.getToken now jar = (None, jar)) /\
  (fst (TokenManager.isAuthenticated now jar) = true <->
   is_Some (fst (TokenManager.getToken now jar))) /\
  snd (TokenManager.isAuthenticated now jar) = snd (TokenManager.getToken now jar).
Proof.
  assert (Hauth : TokenManager.isAuthenticated now jar =
                  (match fst (TokenManager.getToken now jar) with
                   | Some _ => true | None => false end,
                   snd (TokenManager.getToken now jar))).
  { unfold TokenManager.isAuthenticated.
    destruct (TokenManager.getToken now jar); reflexivity. }
  assert (Hfalsy : forall k s, jar !! k = Some s -> s <> "" ->
                               Js.truthy (jar !! k) = false -> False).
  { intros k s Hk Hs Hm. rewrite Hk in Hm. cbn in Hm.
    apply negb_false_iff, String.eqb_eq in Hm. contradiction. }
  pose proof (clearToken_lookup jar) as [Hc1 Hc2].
  rewrite Hauth. cbn [fst snd].
  destruct (getToken_cases now jar)
    as [(t & e & Ht & Hnt & He & Hne & Hle & Hget)
       |[(t & e & Ht & Hnt & He & Hne & Hle & Hget)
        |(Hmiss & Hget)]];
    rewrite Hget; cbn [fst snd].
  - pose proof (proj1 (date_le_false _ _) Hle) as Hfut.
    destruct (Hparse e He Hne) as [ts0 Hts0].
    split; [|split; [|split; [|split; [|split]]]].
    + intros t'. split.
      * intros [= <-]. split; [exact Ht|]. split; [exact Hnt|].
        exists e, ts0. auto.
      * intros (Ht' & _). congruence.
    + reflexivity.
    + intros t' e' ts _ _ He' _ Hp Hts.
      rewrite He in He'. injection He' as <-. specialize (Hfut ts Hp). lia.
    + intros [Hm|Hm]; exfalso; eauto.
    + split; eauto.
    + reflexivity.
  - split; [|split; [|split; [|split; [|split]]]].
    + intros t'. split; [discriminate|].
      intros (_ & _ & e' & ts & He' & _ & Hp & Hfut).
      rewrite He in He'. injection He' as <-.
      rewrite Hp in Hle. cbn in Hle. apply Z.leb_le in Hle. lia.
    + intros [? [=]].
    + auto.
    + intros [Hm|Hm]; exfalso; eauto.
    + split; [discriminate | intros [? [=]]].
    + reflexivity.
  - split; [|split; [|split; [|split; [|split]]]].
    + intros t'. split; [discriminate|].
      intros (Ht' & Hnt' & e' & ts & He' & Hne' & _).
      destruct Hmiss as [Hm|Hm]; exfalso; eauto.
    + reflexivity.
    + intros t' e' ts Ht' Hnt' He' Hne' _ _.
      destruct Hmiss as [Hm|Hm]; exfalso; eauto.
    + reflexivity.
    + split; [discriminate | intros [? [=]]].
    + reflexivity.
Qed.

End TokenStore.

(** C2, counterexample to the claim as stated.  With a token entry but no
    expiry entry in the store, [getToken] returns absent and the store is
    not cleared: the token entry is still there. *)
Lemma getToken_orphan_token_kept :
  orphan_jar !! COOKIE_CONFIG.EXPIRES_KEY = None /\
  fst (@TokenManager.getToken sample_platform 1705312800000 orphan_jar) = None /\
  snd (@TokenManager.getToken sample_platform 1705312800000 orphan_jar)
    !! COOKIE_CONFIG.TOKEN_KEY = Some "abc" /\
  snd (@TokenManager.getToken sample_platform 1705312800000 orphan_jar)
    <> TokenManager.clearToken orphan_jar.
Proof.
  split; [reflexivity|]. split; [reflexivity|]. split; [reflexivity|].
  intros H.
  assert (Hl : snd (@TokenManager.getToken sample_platform 1705312800000 orphan_jar)
                 !! COOKIE_CONFIG.TOKEN_KEY = Some "abc") by reflexivity.
  rewrite H in Hl.
  rewrite (proj1 (clearToken_lookup orphan_jar)) in Hl. discriminate.
Qed.

(** [getToken_spec] at the jar that holds the mock server's token, read one
    day before its expiry. *)
Lemma getToken_spec_witness :
  (forall e, valid_jar !! COOKIE_CONFIG.EXPIRES_KEY = Some e -> e <> "" ->
             is_Some (sample_parse e)) /\
  (fst (@TokenManager.isAuthenticated sample_platform 1705312800000 valid_jar) = true <->
   is_Some (fst (@TokenManager.getToken sample_platform 1705312800000 valid_jar))).
Proof.
  assert (H : forall e, valid_jar !! COOKIE_CONFIG.EXPIRES_KEY = Some e -> e <> "" ->
                        is_Some (sample_parse e)).
  { intros e He _. vm_compute in He. injection He as <-. vm_compute. eauto. }
  split; [exact H|].
  apply (@getToken_spec sample_platform 1705312800000 valid_jar H).
Defined.

(** Outside the theorem's hypothesis: an expiry entry that does not parse
    compares as not expired, and the token is returned. *)
Example getToken_unparseable_expiry :
  fst (@TokenManager.getToken sample_platform 1705312800000
         (TokenManager.setToken "abc" "not a date" ∅)) = Some "abc".
Proof. vm_compute. reflexivity. Qed.

(** ** The gateway client *)

Section Gateway.
Context {P : Platform}.

(** The request interceptor: the header it puts on the request and what
    it does to the world. *)
Lemma requestInterceptor_spec (config : Config.t) (w : World.t) :
  Config.Authorization config = None ->
  let public := apiClient.isPublicEndpoint (Config.url config) in
  let looked := TokenManager.getAuthHeader (World.clock w) (World.cookies w) in
  apiClient.requestInterceptor config w =
    (Config.mk (Config.method config) (Config.url config) (Config.data config)
       (if public then None else fst looked) (Some (World.clock w)),
     World.set_cookies (if public then World.cookies w else snd looked) w).
Proof.
  intros Hnone. cbv zeta.
  unfold apiClient.requestInterceptor, apiClient.getAuthHeader, bind, ret, Date_now.
  destruct w as [jar clk au eff ev sn dp].
  destruct (apiClient.isPublicEndpoint (Config.url config)); cbn [negb].
  - cbn. rewrite Hnone. reflexivity.
  - cbn [World.clock World.cookies].
    destruct (TokenManager.getAuthHeader clk jar) as [[h|] jar']; cbn;
      rewrite ?Hnone; reflexivity.
Qed.

(** What one call of [request] returns and does to the world. *)
Lemma request_spec {T} (method : Method) (endpoint : string)
    (data : option RequestData) (reply : Reply.t T) (w : World.t) :
  let public := apiClient.isPublicEndpoint endpoint in
  let looked := TokenManager.getAuthHeader (World.clock w) (World.cookies w) in
  let jar1 := if public then World.cookies w else snd looked in
  let logout :=
    match Reply.outcome reply with
    | Rejected e => apiClient.is401 e
    | Fulfilled _ => false
    end in
  let r := fst (apiClient.request method endpoint data reply w) in
  let w' := snd (apiClient.request method endpoint data reply w) in
  r = match Reply.outcome reply with
      | Fulfilled d => ApiResponse.mk (Some d) None true
      | Rejected e => apiClient.transformError e
      end /\
  World.sent w' =
    World.sent w ++
      [Config.mk method endpoint data (if public then None else fst looked)
         (Some (World.clock w))] /\
  World.clock w' = World.clock w + Reply.latency reply /\
  World.effect_state w' = World.effect_state w /\
  World.cookies w' = (if logout then TokenManager.clearToken jar1 else jar1) /\
  World.events w' =
    (if logout then World.events w ++ ["auth:logout"] else World.events w) /\
  World.auth w' =
    (if logout && bool_decide (is_Some (World.effect_state w))
     then authReducer (World.auth w) AUTH_LOGOUT else World.auth w) /\
  World.dispatched w' =
    (if logout && bool_decide (is_Some (World.effect_state w))
     then World.dispatched w ++ [AUTH_LOGOUT] else World.dispatched w).
Proof.
  cbv zeta.
  unfold apiClient.request, apiClient.client_request, bind.
  rewrite (requestInterceptor_spec (Config.mk method endpoint data None None) w eq_refl).
  cbn [Config.method Config.url Config.data].
  destruct w as [jar clk au eff ev sn dp].
  cbn [World.clock World.cookies World.sent World.events World.auth
       World.effect_state World.dispatched].
  set (hdr := if apiClient.isPublicEndpoint endpoint then None
              else fst (TokenManager.getAuthHeader clk jar)).
  set (jar1 := if apiClient.isPublicEndpoint endpoint then jar
               else snd (TokenManager.getAuthHeader clk jar)).
  unfold transport, bind, ret.
  destruct reply as [lat [d|e]]; cbn [Reply.outcome Reply.latency].
  - cbn. repeat split; reflexivity.
  - unfold apiClient.responseErrorInterceptor, bind, ret.
    destruct (apiClient.is401 e) eqn:H401.
    + unfold apiClient.clearToken, dispatchEvent, dispatch. cbn.
      destruct eff; cbn; repeat split; reflexivity.
    + cbn. repeat split; reflexivity.
Qed.

(** [login] returns what [request] returned and, on success, stores the
    token and its expiry; the rest of the world is as [request] left it. *)
Lemma login_spec (credentials : LoginRequest.t) (reply : Reply.t AuthResponse.t)
    (w : World.t) :
  let q := apiClient.request POST "/auth/internal" (Some (LoginData credentials)) reply w in
  let l := apiClient.login credentials reply w in
  fst l = fst q /\
  World.cookies (snd l) =
    match Reply.outcome reply with
    | Fulfilled d =>
        TokenManager.setToken (AuthResponse.token d) (AuthResponse.expires_at d)
          (World.cookies (snd q))
    | Rejected _ => World.cookies (snd q)
    end /\
  World.clock (snd l) = World.clock (snd q) /\
  World.auth (snd l) = World.auth (snd q) /\
  World.effect_state (snd l) = World.effect_state (snd q) /\
  World.events (snd l) = World.events (snd q) /\
  World.sent (snd l) = World.sent (snd q) /\
  World.dispatched (snd l) = World.dispatched (snd q).
Proof.
  cbv zeta. unfold apiClient.login, bind.
  pose proof (request_spec POST "/auth/internal" (Some (LoginData credentials)) reply w)
    as Hq.
  cbv zeta in Hq. destruct Hq as (Hr & _).
  destruct (apiClient.request POST "/auth/internal" (Some (LoginData credentials)) reply w)
    as [r w1].
  cbn [fst snd] in *. subst r.
  destruct (Reply.outcome reply) as [d|e].
  - cbn. repeat split; reflexivity.
  - unfold apiClient.transformError.
    destruct (AxiosError.response e); [|destruct (AxiosError.request e)];
      cbn; repeat split; reflexivity.
Qed.

(** What an operation returns, whatever the world. *)
Lemma call_result {T} (op : apiClient.Operation T) (reply : Reply.t T) (w : World.t) :
  fst (apiClient.call op reply w) =
    match Reply.outcome reply with
    | Fulfilled d => ApiResponse.mk (Some d) None true
    | Rejected e => apiClient.transformError e
    end.
Proof.
  destruct op; cbn [apiClient.call];
    try (apply (request_spec _ _ _ reply w)).
  rewrite (proj1 (login_spec credentials reply w)).
  apply (request_spec _ _ _ reply w).
Qed.

(** C5. Every operation of the gateway client returns a value (it does not
    throw): [{success: true, data}] with the response's data when the
    request was fulfilled, and [{success: false, error}] otherwise, where
    the error's code is the response status as a string when the error
    carries a response, NETWORK_ERROR when it carries only a request, and
    UNKNOWN_ERROR in every other case. *)
Theorem call_uniform_result {T} (op : apiClient.Operation T) (reply : Reply.t T)
    (w : World.t) :
  match Reply.outcome reply with
  | Fulfilled d =>
      fst (apiClient.call op reply w) = ApiResponse.mk (Some d) None true
  | Rejected e =>
      exists message details,
        fst (apiClient.call op reply w) =
          ApiResponse.mk None
            (Some (ApiError.mk message
                     match AxiosError.response e with
                     | Some response => Js.toString (AxiosError.status response)
                     | None => if AxiosError.request e then "NETWORK_ERROR"
                               else "UNKNOWN_ERROR"
                     end details))
            false
  end.
Proof.
  rewrite call_result.
  destruct (Reply.outcome reply) as [d|e]; [reflexivity|].
  unfold apiClient.transformError.
  destruct (AxiosError.response e); [|destruct (AxiosError.request e)];
    do 2 eexists; reflexivity.
Qed.

(** Statuses print in decimal. *)
Example toString_statuses :
  Js.toString 401 = "401" /\ Js.toString 404 = "404" /\ Js.toString 500 = "500".
Proof. repeat split; reflexivity. Qed.

(** The world after an operation, apart from the cookies [login] adds. *)
Lemma call_world {T} (op : apiClient.Operation T) (reply : Reply.t T) (w : World.t) :
  exists method endpoint data,
    let q := apiClient.request method endpoint data reply w in
    let l := apiClient.call op reply w in
    (forall e, Reply.outcome reply = Rejected e ->
               World.cookies (snd l) = World.cookies (snd q)) /\
    World.clock (snd l) = World.clock (snd q) /\
    World.auth (snd l) = World.auth (snd q) /\
    World.effect_state (snd l) = World.effect_state (snd q) /\
    World.events (snd l) = World.events (snd q) /\
    World.sent (snd l) = World.sent (snd q) /\
    World.dispatched (snd l) = World.dispatched (snd q).
Proof.
  destruct op; cbn [apiClient.call];
    try (do 3 eexists; cbv zeta; repeat split; reflexivity).
  exists POST, "/auth/internal", (Some (LoginData credentials)). cbv zeta.
  pose proof (login_spec credentials reply w) as Hl. cbv zeta in Hl.
  destruct Hl as (_ & Hc & Hrest).
  split; [|exact Hrest].
  intros e He. rewrite Hc, He. reflexivity.
Qed.

(** C1. Whatever operation is called, when the request is answered with
    status 401 the client removes both token-store entries, dispatches the
    logout event exactly once and issues no second request; the
    AuthProvider's listener, once registered, reduces the controller's
    state by AUTH_LOGOUT, which leaves it unauthenticated with no user. *)
Theorem unauthorized_forces_logout {T} (op : apiClient.Operation T)
    (latency : Z) (body : option ErrorBody.t) (req : bool) (msg : option string)
    (w : World.t) :
  let reply :=
    Reply.mk latency
      (Rejected (AxiosError.mk (Some (AxiosError.mk_response 401 body)) req msg)) in
  let w' := snd (apiClient.call op reply w) in
  World.cookies w' !! COOKIE_CONFIG.TOKEN_KEY = None /\
  World.cookies w' !! COOKIE_CONFIG.EXPIRES_KEY = None /\
  World.events w' = World.events w ++ ["auth:logout"] /\
  (exists config, World.sent w' = World.sent w ++ [config]) /\
  match World.effect_state w with
  | Some _ =>
      World.auth w' = authReducer (World.auth w) AUTH_LOGOUT /\
      World.dispatched w' = World.dispatched w ++ [AUTH_LOGOUT] /\
      AuthState.isAuthenticated (World.auth w') = false /\
      AuthState.user (World.auth w') = None
  | None => World.auth w' = World.auth w
  end.
Proof.
  cbv zeta.
  set (reply := Reply.mk latency
                  (Rejected (AxiosError.mk (Some (AxiosError.mk_response 401 body)) req msg))).
  destruct (call_world op reply w) as (method & endpoint & data & Hw).
  cbv zeta in Hw. destruct Hw as (Hc & _ & Hau & _ & Hev & Hsent & Hdis).
  rewrite (Hc _ eq_refl), Hau, Hev, Hsent, Hdis.
  pose proof (request_spec method endpoint data reply w) as Hq.
  cbv zeta in Hq.
  destruct Hq as (_ & Hs & _ & _ & Hjar & Hevq & Hauq & Hdisq).
  cbn [Reply.outcome reply apiClient.is401 AxiosError.response AxiosError.status] in *.
  change (401 =? 401) with true in *. cbn [andb] in *.
  rewrite Hjar, Hevq, Hs, Hauq, Hdisq.
  split; [apply clearToken_lookup|]. split; [apply clearToken_lookup|].
  split; [reflexivity|]. split; [eauto|].
  destruct (World.effect_state w) as [s|]; cbn.
  - repeat split; reflexivity.
  - reflexivity.
Qed.

(** The Authorization value: the token behind "Bearer ", when [getToken]
    returns one. *)
Lemma getAuthHeader_spec (now : Z) (jar : CookieJar) :
  TokenManager.getAuthHeader now jar =
    ((fun t => "Bearer " +:+ t) <$> fst (TokenManager.getToken now jar),
     snd (TokenManager.getToken now jar)).
Proof.
  unfold TokenManager.getAuthHeader.
  destruct (getToken_cases now jar)
    as [(t & e & _ & Hnt & _ & _ & _ & Hget)
       |[(t & e & _ & _ & _ & _ & _ & Hget)|(_ & Hget)]];
    rewrite Hget; cbn; try reflexivity.
  destruct (String.eqb_spec t ""); [contradiction | reflexivity].
Qed.

(** The part of C6 that holds: a request is dispatched with
    [Authorization: Bearer <token>] exactly when the interceptor does not
    take its URL for a public endpoint and the token store returns a
    token; otherwise it is dispatched without the header. *)
Lemma request_authorization {T} (method : Method) (endpoint : string)
    (data : option RequestData) (reply : Reply.t T) (w : World.t) :
  exists config,
    World.sent (snd (apiClient.request method endpoint data reply w)) =
      World.sent w ++ [config] /\
    Config.url config = endpoint /\
    Config.Authorization config =
      if apiClient.isPublicEndpoint endpoint then None
      else (fun t => "Bearer " +:+ t) <$>
             fst (TokenManager.getToken (World.clock w) (World.cookies w)).
Proof.
  pose proof (request_spec method endpoint data reply w) as Hq. cbv zeta in Hq.
  destruct Hq as (_ & Hs & _).
  eexists. split; [exact Hs|]. split; [reflexivity|]. cbn.
  rewrite getAuthHeader_spec. reflexivity.
Qed.

(** The login, health and version endpoints are classified as public, the
    current-user and workspace-list endpoints are not. *)
Lemma isPublicEndpoint_fixed_urls :
  apiClient.isPublicEndpoint "/auth/internal" = true /\
  apiClient.isPublicEndpoint "/health" = true /\
  apiClient.isPublicEndpoint "/version" = true /\
  apiClient.isPublicEndpoint "/auth/me" = false /\
  apiClient.isPublicEndpoint "/auth/external" = false /\
  apiClient.isPublicEndpoint "/workspaces" = false.
Proof. repeat split; reflexivity. Qed.

End Gateway.

(** ** The auth state controller *)

Section Controller.
Context {P : Platform}.

Lemma or_else_nonempty (a : option string) (b : string) :
  b <> "" -> Js.or_else a b <> "".
Proof.
  intros Hb. destruct a as [s|]; cbn; [|exact Hb].
  destruct (String.eqb_spec s ""); assumption.
Qed.

(** A failed call has no payload. *)
Lemma payload_transformError {T} (e : AxiosError.t) :
  ApiResponse.payload (@apiClient.transformError T e) = None.
Proof.
  unfold apiClient.transformError.
  destruct (AxiosError.response e); [|destruct (AxiosError.request e)]; reflexivity.
Qed.

(** An operation only ever adds to the list of dispatched actions. *)
Lemma call_dispatched {T} (op : apiClient.Operation T) (reply : Reply.t T) (w : World.t) :
  exists rest,
    World.dispatched (snd (apiClient.call op reply w)) = World.dispatched w ++ rest.
Proof.
  destruct (call_world op reply w) as (method & endpoint & data & Hw).
  cbv zeta in Hw. destruct Hw as (_ & _ & _ & _ & _ & _ & Hdis). rewrite Hdis.
  pose proof (request_spec method endpoint data reply w) as Hq. cbv zeta in Hq.
  destruct Hq as (_ & _ & _ & _ & _ & _ & _ & Hd). rewrite Hd.
  match goal with |- context [if ?b then _ else _] => destruct b end.
  - eexists. reflexivity.
  - exists []. symmetry. apply app_nil_r.
Qed.

(** C3. [login] first dispatches AUTH_START, which puts the controller in
    the loading state.  If the login call and the current-user call that
    follows it are both fulfilled, [login] returns true and the controller
    is authenticated, holding the fetched user.  In every other case,
    including a fulfilled login call followed by a failed current-user
    call, [login] returns false and the controller is unauthenticated,
    without a user and with a non-empty error message. *)
Theorem login_outcomes (credentials : LoginRequest.t)
    (loginReply : Reply.t AuthResponse.t) (userReply : Reply.t User.t) (w : World.t) :
  let result := fst (AuthProvider.login credentials loginReply userReply w) in
  let w' := snd (AuthProvider.login credentials loginReply userReply w) in
  (exists rest, World.dispatched w' = World.dispatched w ++ AUTH_START :: rest) /\
  AuthState.isLoading (authReducer (World.auth w) AUTH_START) = true /\
  match Reply.outcome loginReply, Reply.outcome userReply with
  | Fulfilled _, Fulfilled fetched =>
      result = true /\
      World.auth w' = AuthState.mk (Some fetched) true false None
  | _, _ =>
      result = false /\
      exists message,
        message <> "" /\
        World.auth w' = AuthState.mk None false false (Some message)
  end.
Proof.
  cbv zeta.
  destruct (AuthProvider.login credentials loginReply userReply w)
    as [result w'] eqn:Hrun.
  cbn [fst snd].
  unfold AuthProvider.login, bind in Hrun. unfold dispatch at 1 in Hrun.
  set (w1 := World.set_dispatched (World.dispatched w ++ [AUTH_START])
               (World.set_auth (authReducer (World.auth w) AUTH_START) w)) in Hrun.
  pose proof (call_result (apiClient.Login credentials) loginReply w1) as Hr.
  pose proof (call_dispatched (apiClient.Login credentials) loginReply w1) as [r1 Hd1].
  cbn [apiClient.call] in Hr, Hd1.
  destruct (apiClient.login credentials loginReply w1) as [response w2].
  cbn [fst snd] in Hr, Hd1. subst response.
  change (World.dispatched w1) with (World.dispatched w ++ [AUTH_START]) in Hd1.
  rewrite <- app_assoc in Hd1. cbn [app] in Hd1.
  split; [|split; [reflexivity|]].
  - destruct (Reply.outcome loginReply) as [d|e].
    + cbn [ApiResponse.payload ApiResponse.success ApiResponse.data] in Hrun.
      pose proof (call_dispatched apiClient.GetCurrentUser userReply w2) as [r2 Hd2].
      pose proof (call_result apiClient.GetCurrentUser userReply w2) as Hr2.
      cbn [apiClient.call] in Hr2, Hd2.
      destruct (apiClient.getCurrentUser userReply w2) as [userResponse w3].
      cbn [fst snd] in Hr2, Hd2. subst userResponse.
      rewrite Hd1, <- app_assoc in Hd2. cbn [app] in Hd2.
      destruct (Reply.outcome userReply) as [u|e];
        [cbn [ApiResponse.payload ApiResponse.success ApiResponse.data] in Hrun
        |rewrite payload_transformError in Hrun];
        unfold dispatch, ret in Hrun; injection Hrun as <- <-; cbn;
        rewrite Hd2, <- app_assoc; cbn [app]; eexists; reflexivity.
    + rewrite payload_transformError in Hrun.
      unfold dispatch, ret in Hrun; injection Hrun as <- <-; cbn.
      rewrite Hd1, <- app_assoc; cbn [app]. eexists; reflexivity.
  - destruct (Reply.outcome loginReply) as [d|e].
    + cbn [ApiResponse.payload ApiResponse.success ApiResponse.data] in Hrun.
      pose proof (call_result apiClient.GetCurrentUser userReply w2) as Hr2.
      cbn [apiClient.call] in Hr2.
      destruct (apiClient.getCurrentUser userReply w2) as [userResponse w3].
      cbn [fst snd] in Hr2. subst userResponse.
      destruct (Reply.outcome userReply) as [u|e].
      * cbn in Hrun. injection Hrun as <- <-. split; reflexivity.
      * rewrite payload_transformError in Hrun. cbn in Hrun.
        injection Hrun as <- <-. split; [reflexivity|].
        eexists. split; [|reflexivity]. discriminate.
    + rewrite payload_transformError in Hrun. cbn in Hrun.
      injection Hrun as <- <-. split; [reflexivity|].
      eexists. split; [|reflexivity]. apply or_else_nonempty. discriminate.
Qed.

(** A fulfilled login call stores the token; when the current-user call
    then fails with a status other than 401, nothing removes it: the
    controller is unauthenticated while the token store still holds the
    token. *)
Example login_failed_fetch_keeps_token :
  fst (@AuthProvider.login sample_platform (LoginRequest.mk "admin" "password")
         (Reply.mk 10 (Fulfilled (AuthResponse.mk "mock-jwt-token-12345" "Bearer"
                                    "2024-01-16T10:00:00.000Z")))
         (rejected_with 500 "boom") (fresh_world ∅)) = false /\
  World.cookies
    (snd (@AuthProvider.login sample_platform (LoginRequest.mk "admin" "password")
            (Reply.mk 10 (Fulfilled (AuthResponse.mk "mock-jwt-token-12345" "Bearer"
                                       "2024-01-16T10:00:00.000Z")))
            (rejected_with 500 "boom") (fresh_world ∅)))
    !! COOKIE_CONFIG.TOKEN_KEY = Some "mock-jwt-token-12345".
Proof. repeat match goal with |- _ /\ _ => split end; vm_compute; reflexivity. Qed.

(** The mount effect closes over the first render's state, the initial
    state, and nothing replaces the closure afterwards. *)
Lemma mount_effect_state (reply : Reply.t User.t) (w : World.t) :
  World.effect_state (snd (AuthProvider.mount reply w)) = Some initialState.
Proof.
  unfold AuthProvider.mount, AuthProvider.firstRender, AuthProvider.mountEffect, bind.
  cbn [World.auth World.set_auth].
  unfold AuthProvider.checkAuth, bind, dispatch, AuthProvider.isAuthenticated.
  cbn [World.clock World.cookies World.set_auth World.set_dispatched
       World.set_effect_state].
  destruct (TokenManager.isAuthenticated _ _) as [[|] jar]; cbn [negb].
  - pose proof (request_spec GET "/auth/me" None reply
                  (World.set_cookies jar
                     (World.set_dispatched (World.dispatched w ++ [AUTH_START])
                        (World.set_auth (authReducer initialState AUTH_START)
                           (World.set_effect_state (Some initialState)
                              (World.set_auth initialState w)))))) as Hq.
    cbv zeta in Hq. destruct Hq as (_ & _ & _ & Heff & _).
    unfold apiClient.getCurrentUser.
    cbn [World.auth World.set_auth World.dispatched World.set_dispatched
         World.set_effect_state World.set_cookies] in *.
    destruct (apiClient.request GET "/auth/me" None reply _) as [response w2].
    cbn [snd] in Heff.
    destruct (ApiResponse.payload response); cbn; exact Heff.
  - reflexivity.
Qed.

(** With the closure holding the initial state, a run of the interval
    callback never dispatches: the controller's state is what it was. *)
Lemma tokenCheckInterval_stale (w : World.t) :
  World.effect_state w = Some initialState ->
  World.auth (snd (AuthProvider.tokenCheckInterval w)) = World.auth w /\
  World.dispatched (snd (AuthProvider.tokenCheckInterval w)) = World.dispatched w.
Proof.
  intros Heff. unfold AuthProvider.tokenCheckInterval. rewrite Heff.
  unfold bind, AuthProvider.isTokenExpiringSoon, AuthProvider.isAuthenticated, ret.
  destruct (TokenManager.isAuthenticated (World.clock w) (World.cookies w)) as [b jar].
  cbn [initialState AuthState.isAuthenticated]. rewrite andb_false_r.
  split; reflexivity.
Qed.

End Controller.

(** ** The resource list controllers *)

Section Lists.
Context {P : Platform}.

(** C9. For both list controllers: a fulfilled load replaces the local
    collection with the fetched one; a failed load leaves the collection
    as it was and, when not silent, sets a non-empty error message; a
    silent load, fulfilled or not, leaves the error state as it was. *)
Theorem load_replaces_or_keeps :
  (forall (reply : Reply.t (list Workspace.t)) (st : WorkspaceList.state) (w : World.t),
     let st' := fst (WorkspaceList.loadWorkspaces reply st w) in
     match Reply.outcome reply with
     | Fulfilled data => WorkspaceList.workspaces st' = data
     | Rejected _ =>
         WorkspaceList.workspaces st' = WorkspaceList.workspaces st /\
         exists message, message <> "" /\ WorkspaceList.error st' = Some message
     end) /\
  (forall (workspace : Workspace.t) (silent : bool) (reply : Reply.t (list Session.t))
          (st : SessionManager.state) (w : World.t),
     let st' := fst (SessionManager.loadSessions (Some workspace) silent reply st w) in
     match Reply.outcome reply with
     | Fulfilled data => SessionManager.sessions st' = data
     | Rejected _ =>
         SessionManager.sessions st' = SessionManager.sessions st /\
         if silent then SessionManager.error st' = SessionManager.error st
         else exists message, message <> "" /\ SessionManager.error st' = Some message
     end /\
     if silent then SessionManager.error st' = SessionManager.error st
     else True).
Proof.
  split.
  - intros reply st w. cbv zeta.
    unfold WorkspaceList.loadWorkspaces, bind, ret.
    pose proof (call_result apiClient.GetWorkspaces reply w) as Hr.
    cbn [apiClient.call] in Hr.
    destruct (apiClient.getWorkspaces reply w) as [response w1].
    cbn [fst] in Hr. subst response.
    destruct (Reply.outcome reply) as [data|e].
    + reflexivity.
    + rewrite payload_transformError. cbn. split; [reflexivity|].
      eexists. split; [|reflexivity]. apply or_else_nonempty. discriminate.
  - intros workspace silent reply st w. cbv zeta.
    unfold SessionManager.loadSessions, bind, ret.
    pose proof (call_result (apiClient.GetSessions (Workspace.id workspace)) reply w) as Hr.
    cbn [apiClient.call] in Hr.
    destruct (apiClient.getSessions (Workspace.id workspace) reply w) as [response w1].
    cbn [fst] in Hr. subst response.
    destruct (Reply.outcome reply) as [data|e]; [|rewrite payload_transformError];
      destruct silent; cbn; repeat split; try reflexivity.
    eexists. split; [|reflexivity]. apply or_else_nonempty. discriminate.
Qed.

(** The request a call of [request] hands to the transport. *)
Lemma request_sent {T} (method : Method) (endpoint : string)
    (data : option RequestData) (reply : Reply.t T) (w : World.t) :
  exists config,
    World.sent (snd (apiClient.request method endpoint data reply w)) =
      World.sent w ++ [config] /\
    Config.method config = method /\ Config.url config = endpoint /\
    Config.data config = data.
Proof.
  pose proof (request_spec method endpoint data reply w) as Hq. cbv zeta in Hq.
  destruct Hq as (_ & Hs & _).
  eexists. split; [exact Hs|]. repeat split; reflexivity.
Qed.

(** C8. Creating: when the create call is fulfilled, the local list is the
    prior list with the returned entity appended, and the one request sent
    carried only the form's name and description; when the call fails, or
    validation stops the submission, the list is unchanged.  Deleting:
    when the delete call succeeds, the local list is the prior list
    without the entries of that id; when it fails, or the user does not
    confirm, the list is unchanged.  The backend builds the created
    entity's id and timestamps from its own clock, and that entity is what
    the list receives. *)
Theorem workspace_list_create_delete :
  (forall (workspace : Workspace.input) (latency : Z) (created : Workspace.t)
          (modal : CreateWorkspaceModal.state) (list : WorkspaceList.state) (w : World.t),
     let run := CreateWorkspaceModal.handleSubmit ∅ workspace
                  (Reply.mk latency (Fulfilled created)) modal list w in
     WorkspaceList.workspaces (snd (fst run)) =
       WorkspaceList.workspaces list ++ [created] /\
     exists config,
       World.sent (snd run) = World.sent w ++ [config] /\
       Config.method config = POST /\ Config.url config = "/workspaces" /\
       Config.data config = Some (WorkspaceData workspace)) /\
  (forall (workspace : Workspace.input) (latency : Z) (e : AxiosError.t)
          (modal : CreateWorkspaceModal.state) (list : WorkspaceList.state) (w : World.t),
     snd (fst (CreateWorkspaceModal.handleSubmit ∅ workspace
                 (Reply.mk latency (Rejected e)) modal list w)) = list) /\
  (forall (newErrors : gmap string string) (workspace : Workspace.input)
          (reply : Reply.t Workspace.t)
          (modal : CreateWorkspaceModal.state) (list : WorkspaceList.state) (w : World.t),
     size newErrors <> 0%nat ->
     snd (fst (CreateWorkspaceModal.handleSubmit newErrors workspace reply modal list w))
       = list /\
     World.sent (snd (CreateWorkspaceModal.handleSubmit newErrors workspace reply
                        modal list w)) = World.sent w) /\
  (forall (workspace : Workspace.t) (latency : Z)
          (card : WorkspaceCard.state) (list : WorkspaceList.state) (w : World.t),
     let list' :=
       snd (fst (WorkspaceCard.handleDelete true workspace
                   (Reply.mk latency (Fulfilled tt)) card list w)) in
     WorkspaceList.workspaces list' =
       List.filter (fun x => negb (String.eqb (Workspace.id x) (Workspace.id workspace)))
         (WorkspaceList.workspaces list) /\
     forall x, In x (WorkspaceList.workspaces list') ->
               Workspace.id x <> Workspace.id workspace) /\
  (forall (workspace : Workspace.t) (latency : Z) (e : AxiosError.t)
          (card : WorkspaceCard.state) (list : WorkspaceList.state) (w : World.t),
     snd (fst (WorkspaceCard.handleDelete true workspace
                 (Reply.mk latency (Rejected e)) card list w)) = list) /\
  (forall (workspace : Workspace.t) (reply : Reply.t unit)
          (card : WorkspaceCard.state) (list : WorkspaceList.state) (w : World.t),
     WorkspaceCard.handleDelete false workspace reply card list w = (None, card, list, w)) /\
  (forall (now latency : Z) (workspace : Workspace.input) (d : MockServer.db)
          (modal : CreateWorkspaceModal.state) (list : WorkspaceList.state) (w : World.t),
     let created :=
       Workspace.mk ("ws-" +:+ Js.toString now) (Workspace.in_name workspace)
         (Workspace.in_description workspace)
         (Date_toISOString now) (Date_toISOString now) in
     MockServer.post_workspaces now workspace d =
       (MockServer.mk (MockServer.workspaces d ++ [created]) (MockServer.sessions d),
        MockServer.Json created) /\
     WorkspaceList.workspaces
       (snd (fst (CreateWorkspaceModal.handleSubmit ∅ workspace
                    (Reply.mk latency
                       (MockServer.settle (snd (MockServer.post_workspaces now workspace d))))
                    modal list w)))
       = WorkspaceList.workspaces list ++ [created]).
Proof.
  assert (Hcreate :
    forall (workspace : Workspace.input) (reply : Reply.t Workspace.t)
           (modal : CreateWorkspaceModal.state) (list : WorkspaceList.state) (w : World.t),
      let run := CreateWorkspaceModal.handleSubmit ∅ workspace reply modal list w in
      snd (fst run) =
        match Reply.outcome reply with
        | Fulfilled created => WorkspaceList.handleWorkspaceCreated created list
        | Rejected _ => list
        end /\
      World.sent (snd run) =
        World.sent (snd (apiClient.request POST "/workspaces"
                           (Some (WorkspaceData workspace)) reply w))).
  { intros workspace reply modal list w. cbv zeta.
    unfold CreateWorkspaceModal.handleSubmit.
    change (size (∅ : gmap string string)) with 0%nat. cbn [Nat.eqb negb].
    unfold bind, ret, apiClient.createWorkspace.
    pose proof (request_spec POST "/workspaces" (Some (WorkspaceData workspace)) reply w)
      as Hq.
    cbv zeta in Hq. destruct Hq as (Hr & _).
    destruct (apiClient.request POST "/workspaces" (Some (WorkspaceData workspace)) reply w)
      as [response w1].
    cbn [fst snd] in *. subst response.
    destruct (Reply.outcome reply) as [created|e];
      [|rewrite payload_transformError]; cbn; split; reflexivity. }
  assert (Hdelete :
    forall (workspace : Workspace.t) (reply : Reply.t unit)
           (card : WorkspaceCard.state) (list : WorkspaceList.state) (w : World.t),
      snd (fst (WorkspaceCard.handleDelete true workspace reply card list w)) =
        match Reply.outcome reply with
        | Fulfilled _ => WorkspaceList.handleWorkspaceDeleted (Workspace.id workspace) list
        | Rejected _ => list
        end).
  { intros workspace reply card list w.
    unfold WorkspaceCard.handleDelete. cbn [negb].
    unfold bind, ret.
    pose proof (call_result (apiClient.DeleteWorkspace (Workspace.id workspace)) reply w)
      as Hr.
    cbn [apiClient.call] in Hr.
    destruct (apiClient.deleteWorkspace (Workspace.id workspace) reply w)
      as [response w1].
    cbn [fst] in Hr. subst response.
    destruct (Reply.outcome reply) as [[]|e]; [reflexivity|].
    unfold apiClient.transformError.
    destruct (AxiosError.response e); [|destruct (AxiosError.request e)]; reflexivity. }
  split; [|split; [|split; [|split; [|split; [|split]]]]].
  - intros workspace latency created modal list w. cbv zeta.
    destruct (Hcreate workspace (Reply.mk latency (Fulfilled created)) modal list w)
      as [Hl Hs].
    cbv zeta in Hl, Hs. rewrite Hl, Hs. split; [reflexivity|].
    apply request_sent.
  - intros workspace latency e modal list w.
    apply (Hcreate workspace (Reply.mk latency (Rejected e)) modal list w).
  - intros newErrors workspace reply modal list w Hsize.
    unfold CreateWorkspaceModal.handleSubmit.
    destruct (Nat.eqb_spec (size newErrors) 0); [contradiction|].
    split; reflexivity.
  - intros workspace latency card list w. cbv zeta.
    rewrite (Hdelete workspace (Reply.mk latency (Fulfilled tt)) card list w).
    cbn. split; [reflexivity|].
    intros x Hx. apply filter_In in Hx as [_ Hx].
    apply negb_true_iff in Hx. apply String.eqb_neq in Hx. exact Hx.
  - intros workspace latency e card list w.
    apply (Hdelete workspace (Reply.mk latency (Rejected e)) card list w).
  - reflexivity.
  - intros now latency workspace d modal list w. cbv zeta.
    split; [reflexivity|].
    destruct (Hcreate workspace
                (Reply.mk latency
                   (MockServer.settle (snd (MockServer.post_workspaces now workspace d))))
                modal list w) as [Hl _].
    cbv zeta in Hl. rewrite Hl. reflexivity.
Qed.

(** The loop of [handleStartAll] and [handleStopAll], for an [api] that is
    a POST to a path determined by the session id. *)
Lemma forEachSession_spec (path : string -> string)
    (api : string -> Reply.t Session.t -> M (ApiResponse.t Session.t))
    (replies : nat -> Reply.t Session.t) (selected : list Session.t) :
  (forall id reply, api id reply = apiClient.request POST (path id) None reply) ->
  forall (k : nat) (st : SessionManager.state) (w : World.t),
    SessionManager.sessions
      (fst (SessionManager.forEachSession api replies k selected st w)) =
      apply_replies replies k selected (SessionManager.sessions st) /\
    exists configs,
      World.sent (snd (SessionManager.forEachSession api replies k selected st w)) =
        World.sent w ++ configs /\
      map (fun config => (Config.method config, Config.url config)) configs =
        map (fun session => (POST, path (Session.id session))) selected.
Proof.
  intros Hapi. induction selected as [|session rest IH]; intros k st w.
  - cbn. split; [reflexivity|]. exists []. split; [|reflexivity].
    symmetry. apply app_nil_r.
  - cbn [apply_replies].
    destruct (SessionManager.forEachSession api replies k (session :: rest) st w)
      as [st' w'] eqn:Hrun.
    cbn [SessionManager.forEachSession] in Hrun. unfold bind in Hrun.
    rewrite Hapi in Hrun.
    pose proof (request_spec POST (path (Session.id session)) None (replies k) w) as Hq.
    cbv zeta in Hq. destruct Hq as (Hr & Hs & _).
    destruct (apiClient.request POST (path (Session.id session)) None (replies k) w)
      as [response w1].
    cbn [fst snd] in Hr, Hs. subst response.
    match type of Hrun with
    | SessionManager.forEachSession _ _ _ _ ?st1 _ = _ =>
        destruct (IH (S k) st1 w1) as (Hsess & configs & Hsent & Hmap)
    end.
    rewrite Hrun in Hsess, Hsent. cbn [fst snd] in *.
    split.
    + rewrite Hsess. f_equal.
      destruct (Reply.outcome (replies k)) as [updated|e];
        [reflexivity | rewrite payload_transformError; reflexivity].
    + eexists (_ :: configs). split.
      * rewrite Hsent, Hs, <- app_assoc. reflexivity.
      * cbn [map Config.method Config.url]. rewrite Hmap. reflexivity.
Qed.

Lemma filter_none {A} (p : A -> bool) (l : list A) :
  (forall x, In x l -> p x = false) -> List.filter p l = [].
Proof.
  induction l as [|a l IH]; intros H; cbn; [reflexivity|].
  rewrite (H a) by (left; reflexivity).
  apply IH. intros x Hx. apply H. right. exact Hx.
Qed.

(** C7. [handleStartAll] sends one start request per session whose status
    is stopped, in list order, whatever the replies are, and the local
    collection ends as the prior one with each fulfilled reply applied in
    turn to the elements of the returned id; [handleStopAll] does the same
    with the running sessions and the stop request.  When every session is
    running, [handleStartAll] sends nothing and changes nothing.  On the
    backend, a start request for a session it knows answers with that
    session in status running, which is what the client's call returns. *)
Theorem startAll_stopAll :
  (forall (workspace : Workspace.t) (replies : nat -> Reply.t Session.t)
          (st : SessionManager.state) (w : World.t),
     let run := SessionManager.handleStartAll (Some workspace) replies st w in
     let stoppedSessions :=
       List.filter (fun session => Status.eqb (Session.status session) Status.stopped)
         (SessionManager.sessions st) in
     SessionManager.sessions (fst run) =
       apply_replies replies 0 stoppedSessions (SessionManager.sessions st) /\
     exists configs,
       World.sent (snd run) = World.sent w ++ configs /\
       map (fun config => (Config.method config, Config.url config)) configs =
         map (fun session =>
                (POST, "/workspaces/" +:+ Workspace.id workspace +:+ "/sessions/"
                         +:+ Session.id session +:+ "/start"))
           stoppedSessions) /\
  (forall (workspace : Workspace.t) (replies : nat -> Reply.t Session.t)
          (st : SessionManager.state) (w : World.t),
     let run := SessionManager.handleStopAll (Some workspace) replies st w in
     let runningSessions :=
       List.filter (fun session => Status.eqb (Session.status session) Status.running)
         (SessionManager.sessions st) in
     SessionManager.sessions (fst run) =
       apply_replies replies 0 runningSessions (SessionManager.sessions st) /\
     exists configs,
       World.sent (snd run) = World.sent w ++ configs /\
       map (fun config => (Config.method config, Config.url config)) configs =
         map (fun session =>
                (POST, "/workspaces/" +:+ Workspace.id workspace +:+ "/sessions/"
                         +:+ Session.id session +:+ "/stop"))
           runningSessions) /\
  (forall (workspace : Workspace.t) (replies : nat -> Reply.t Session.t)
          (st : SessionManager.state) (w : World.t),
     (forall session, In session (SessionManager.sessions st) ->
                      Session.status session = Status.running) ->
     SessionManager.handleStartAll (Some workspace) replies st w = (st, w)) /\
  (forall (now latency : Z) (workspaceId sessionId : string) (d : MockServer.db)
          (session : Session.t) (w : World.t),
     List.find (fun s => String.eqb (Session.id s) sessionId)
       (default [] (MockServer.sessions d !! workspaceId)) = Some session ->
     let answer := snd (MockServer.post_session_start now workspaceId sessionId d) in
     answer = MockServer.Json (MockServer.set_status Status.running now session) /\
     exists started,
       ApiResponse.payload
         (fst (apiClient.startSession workspaceId sessionId
                 (Reply.mk latency (MockServer.settle answer)) w)) = Some started /\
       Session.status started = Status.running /\
       Session.id started = sessionId).
Proof.
  split; [|split; [|split]].
  - intros workspace replies st w. cbv zeta.
    unfold SessionManager.handleStartAll.
    apply (forEachSession_spec
             (fun id => "/workspaces/" +:+ Workspace.id workspace +:+ "/sessions/"
                          +:+ id +:+ "/start")).
    reflexivity.
  - intros workspace replies st w. cbv zeta.
    unfold SessionManager.handleStopAll.
    apply (forEachSession_spec
             (fun id => "/workspaces/" +:+ Workspace.id workspace +:+ "/sessions/"
                          +:+ id +:+ "/stop")).
    reflexivity.
  - intros workspace replies st w Hall.
    unfold SessionManager.handleStartAll.
    rewrite filter_none; [reflexivity|].
    intros session Hin. rewrite (Hall session Hin). reflexivity.
  - intros now latency workspaceId sessionId d session w Hfind. cbv zeta.
    unfold MockServer.post_session_start, MockServer.post_session_status.
    rewrite Hfind. cbn [snd]. split; [reflexivity|].
    exists (MockServer.set_status Status.running now session).
    pose proof (call_result (apiClient.StartSession workspaceId sessionId)
                  (Reply.mk latency
                     (MockServer.settle
                        (MockServer.Json
                           (MockServer.set_status Status.running now session)))) w) as Hr.
    cbn [apiClient.call] in Hr. rewrite Hr. cbn.
    repeat split.
    apply find_some in Hfind as [_ Hid]. apply String.eqb_eq in Hid. exact Hid.
Qed.

(** Start All against the development backend's initial data: one request,
    for the stopped session sess-2, after which both sessions of ws-1 are
    running locally. *)
Example startAll_on_mock_data :
  map (fun config => (Config.method config, Config.url config))
    (World.sent
       (snd (@SessionManager.handleStartAll sample_platform
               (Some (Workspace.mk "ws-1" "Development Environment" None "" ""))
               (fun _ => Reply.mk 10
                           (MockServer.settle
                              (snd (@MockServer.post_session_start sample_platform
                                      1705312800000 "ws-1" "sess-2"
                                      (@MockServer.initial)))))
               (SessionManager.mk
                  (default [] (MockServer.sessions (@MockServer.initial) !! "ws-1"))
                  false None false false)
               (fresh_world valid_jar))))
    = [(POST, "/workspaces/ws-1/sessions/sess-2/start")] /\
  map (fun session => (Session.id session, Session.status session))
    (SessionManager.sessions
       (fst (@SessionManager.handleStartAll sample_platform
               (Some (Workspace.mk "ws-1" "Development Environment" None "" ""))
               (fun _ => Reply.mk 10
                           (MockServer.settle
                              (snd (@MockServer.post_session_start sample_platform
                                      1705312800000 "ws-1" "sess-2"
                                      (@MockServer.initial)))))
               (SessionManager.mk
                  (default [] (MockServer.sessions (@MockServer.initial) !! "ws-1"))
                  false None false false)
               (fresh_world valid_jar))))
    = [("sess-1", Status.running); ("sess-2", Status.running)].
Proof. repeat match goal with |- _ /\ _ => split end; vm_compute; reflexivity. Qed.

End Lists.

(** C4, where the code departs from the claim.  After the provider has
    mounted and the user has logged in, the controller is authenticated.
    When the token store then becomes invalid, because another tab removed
    the cookies or because the expiry was reached, a run of the interval
    callback finds the store invalid and dispatches nothing: the
    controller is still authenticated after the tick. *)
Theorem tokenCheckInterval_keeps_authenticated :
  AuthState.isAuthenticated (World.auth after_login) = true /\
  (fst (@TokenManager.isAuthenticated sample_platform
          (World.clock logged_out_elsewhere) (World.cookies logged_out_elsewhere)) = false /\
   AuthState.isAuthenticated
     (World.auth (snd (@AuthProvider.tokenCheckInterval sample_platform
                         logged_out_elsewhere))) = true /\
   World.dispatched (snd (@AuthProvider.tokenCheckInterval sample_platform
                            logged_out_elsewhere))
     = World.dispatched logged_out_elsewhere) /\
  (fst (@TokenManager.isAuthenticated sample_platform
          (World.clock at_expiry) (World.cookies at_expiry)) = false /\
   AuthState.isAuthenticated
     (World.auth (snd (@AuthProvider.tokenCheckInterval sample_platform at_expiry)))
     = true /\
   World.dispatched (snd (@AuthProvider.tokenCheckInterval sample_platform at_expiry))
     = World.dispatched at_expiry).
Proof. repeat match goal with |- _ /\ _ => split end; vm_compute; reflexivity. Qed.

(** C6, where the code departs from the claim.  [getSessions] and
    [getWorkspace] for the workspace id "health-check" target the session
    and workspace endpoints, yet the interceptor classifies their URLs as
    public, because "/health" occurs in them; with a valid token in the
    store the requests are dispatched without an Authorization header.
    The same calls for the id "ws-1" carry the header. *)
Theorem workspace_named_health_sent_without_token :
  apiClient.isPublicEndpoint "/workspaces/health-check/sessions" = true /\
  apiClient.isPublicEndpoint "/workspaces/health-check" = true /\
  fst (@TokenManager.getToken sample_platform 1705312800000 valid_jar)
    = Some "mock-jwt-token-12345" /\
  map (fun config => (Config.url config, Config.Authorization config))
    (World.sent
       (snd (@apiClient.getSessions sample_platform "health-check"
               (rejected_with 401 "Unauthorized") (fresh_world valid_jar))))
    = [("/workspaces/health-check/sessions", None)] /\
  map (fun config => (Config.url config, Config.Authorization config))
    (World.sent
       (snd (@apiClient.getWorkspace sample_platform "health-check"
               (rejected_with 401 "Unauthorized") (fresh_world valid_jar))))
    = [("/workspaces/health-check", None)] /\
  map (fun config => (Config.url config, Config.Authorization config))
    (World.sent
       (snd (@apiClient.getSessions sample_platform "ws-1"
               (rejected_with 401 "Unauthorized") (fresh_world valid_jar))))
    = [("/workspaces/ws-1/sessions", Some "Bearer mock-jwt-token-12345")].
Proof. repeat match goal with |- _ /\ _ => split end; vm_compute; reflexivity. Qed.

(* ===================================================================== *)
(** * Further properties of the code *)
(* ===================================================================== *)

(** ** Token store: storing, clearing and reading back *)

Section TokenStoreMore.
Context {P : Platform}.





(** The statement of [clearToken_reads_absent], as later proofs use it. *)
Lemma clearToken_reads_absent_holds (now : Z) (jar : CookieJar) :
  TokenManager.getToken now (TokenManager.clearToken jar)
    = (None, TokenManager.clearToken jar) /\
  TokenManager.isAuthenticated now (TokenManager.clearToken jar)
    = (false, TokenManager.clearToken jar) /\
  TokenManager.getAuthHeader now (TokenManager.clearToken jar)
    = (None, TokenManager.clearToken jar) /\
  TokenManager.isTokenExpiringSoon now (TokenManager.clearToken jar) = false /\
  TokenManager.clearToken (TokenManager.clearToken jar) = TokenManager.clearToken jar.
Proof.
  destruct (clearToken_lookup jar) as [H1 H2].
  assert (Hget : TokenManager.getToken now (TokenManager.clearToken jar)
                 = (None, TokenManager.clearToken jar)).
  { unfold TokenManager.getToken. rewrite H1. reflexivity. }
  unfold TokenManager.isAuthenticated, TokenManager.getAuthHeader,
    TokenManager.isTokenExpiringSoon, TokenManager.getTokenExpiration.
  rewrite Hget, H2. repeat split.
  unfold TokenManager.clearToken.
  apply map_eq. intros k. repeat rewrite lookup_delete.
  repeat case_decide; congruence.
Qed.

(** X2. After [clearToken] the store reads as empty at every clock
    reading: [getToken], [isAuthenticated] and [getAuthHeader] return
    absent and leave it as it is, and [isTokenExpiringSoon] is false.
    Clearing twice is clearing once. *)
Theorem clearToken_reads_absent (now : Z) (jar : CookieJar) :
  TokenManager.getToken now (TokenManager.clearToken jar)
    = (None, TokenManager.clearToken jar) /\
  TokenManager.isAuthenticated now (TokenManager.clearToken jar)
    = (false, TokenManager.clearToken jar) /\
  TokenManager.getAuthHeader now (TokenManager.clearToken jar)
    = (None, TokenManager.clearToken jar) /\
  TokenManager.isTokenExpiringSoon now (TokenManager.clearToken jar) = false /\
  TokenManager.clearToken (TokenManager.clearToken jar) = TokenManager.clearToken jar.
Proof. exact (clearToken_reads_absent_holds now jar). Qed.

(** X3. The token store only ever touches its own two cookies: any other
    cookie in the jar is the same after [setToken], [clearToken],
    [getToken], [isAuthenticated] and [getAuthHeader]. *)
Theorem token_store_frame (now : Z) (token expiresAt k : string) (jar : CookieJar) :
  k <> COOKIE_CONFIG.TOKEN_KEY -> k <> COOKIE_CONFIG.EXPIRES_KEY ->
  TokenManager.setToken token expiresAt jar !! k = jar !! k /\
  TokenManager.clearToken jar !! k = jar !! k /\
  snd (TokenManager.getToken now jar) !! k = jar !! k /\
  snd (TokenManager.isAuthenticated now jar) !! k = jar !! k /\
  snd (TokenManager.getAuthHeader now jar) !! k = jar !! k.
Proof.
  intros Hk1 Hk2.
  assert (Hc : TokenManager.clearToken jar !! k = jar !! k).
  { unfold TokenManager.clearToken. rewrite !lookup_delete_ne by congruence. reflexivity. }
  assert (Hg : snd (TokenManager.getToken now jar) !! k = jar !! k).
  { destruct (getToken_cases now jar)
      as [(t & e & _ & _ & _ & _ & _ & Hget)
         |[(t & e & _ & _ & _ & _ & _ & Hget)|(_ & Hget)]];
      rewrite Hget; cbn [snd]; [reflexivity | exact Hc | reflexivity]. }
  split; [|split; [exact Hc|split; [exact Hg|split]]].
  - unfold TokenManager.setToken. rewrite !lookup_insert_ne by congruence. reflexivity.
  - unfold TokenManager.isAuthenticated.
    destruct (TokenManager.getToken now jar); exact Hg.
  - unfold TokenManager.getAuthHeader.
    destruct (TokenManager.getToken now jar); exact Hg.
Qed.

(** The statement of [getToken_idempotent_absent_final], as later proofs use it. *)
Lemma getToken_idempotent_absent_final_holds (now : Z) (jar : CookieJar) :
  TokenManager.getToken now (snd (TokenManager.getToken now jar))
    = TokenManager.getToken now jar /\
  (fst (TokenManager.getToken now jar) = None ->
   forall later,
     TokenManager.getToken later (snd (TokenManager.getToken now jar))
       = (None, snd (TokenManager.getToken now jar))).
Proof.
  destruct (getToken_cases now jar)
    as [(t & e & _ & _ & _ & _ & _ & Hget)
       |[(t & e & _ & _ & _ & _ & _ & Hget)|(Hmiss & Hget)]];
    rewrite Hget; cbn [fst snd].
  - split; [exact Hget | discriminate].
  - split; [|intros _ later]; apply clearToken_reads_absent_holds.
  - assert (Hany : forall later, TokenManager.getToken later jar = (None, jar)).
    { intros later. unfold TokenManager.getToken.
      destruct Hmiss as [Hm|Hm]; rewrite Hm; cbn [negb orb];
        [reflexivity | rewrite orb_true_r; reflexivity]. }
    split; [apply Hany | intros _; apply Hany].
Qed.

(** X4. Reading is idempotent, and absence is final: a second [getToken]
    at the same clock reading returns what the first returned and changes
    nothing; once [getToken] has returned absent, every [getToken] on the
    store it left, at any clock reading, returns absent and changes
    nothing. *)
Theorem getToken_idempotent_absent_final (now : Z) (jar : CookieJar) :
  TokenManager.getToken now (snd (TokenManager.getToken now jar))
    = TokenManager.getToken now jar /\
  (fst (TokenManager.getToken now jar) = None ->
   forall later,
     TokenManager.getToken later (snd (TokenManager.getToken now jar))
       = (None, snd (TokenManager.getToken now jar))).
Proof. exact (getToken_idempotent_absent_final_holds now jar). Qed.



End TokenStoreMore.

Lemma token_store_frame_witness :
  "theme" <> COOKIE_CONFIG.TOKEN_KEY /\ "theme" <> COOKIE_CONFIG.EXPIRES_KEY /\
  snd (@TokenManager.getToken sample_platform 1705399200000
         (<["theme" := "dark"]> valid_jar)) !! "theme" = Some "dark".
Proof.
  split; [discriminate|]. split; [discriminate|].
  rewrite (proj1 (proj2 (proj2
             (@token_store_frame sample_platform 1705399200000 "" "" "theme"
                (<["theme" := "dark"]> valid_jar)
                ltac:(discriminate) ltac:(discriminate))))).
  vm_compute. reflexivity.
Defined.




(** ** Gateway client: what a call does to the world *)

Section GatewayMore.
Context {P : Platform}.


(** The statement of [logout_signal_only_on_401], as later proofs use it. *)
Lemma logout_signal_only_on_401_holds {T} (op : apiClient.Operation T) (reply : Reply.t T)
    (w : World.t) :
  let logout :=
    match Reply.outcome reply with
    | Rejected e => apiClient.is401 e
    | Fulfilled _ => false
    end in
  let w' := snd (apiClient.call op reply w) in
  (exists config, World.sent w' = World.sent w ++ [config]) /\
  World.clock w' = World.clock w + Reply.latency reply /\
  World.effect_state w' = World.effect_state w /\
  World.events w' =
    (if logout then World.events w ++ ["auth:logout"] else World.events w) /\
  World.auth w' =
    (if logout && bool_decide (is_Some (World.effect_state w))
     then authReducer (World.auth w) AUTH_LOGOUT else World.auth w) /\
  World.dispatched w' =
    (if logout && bool_decide (is_Some (World.effect_state w))
     then World.dispatched w ++ [AUTH_LOGOUT] else World.dispatched w).
Proof.
  cbv zeta.
  destruct (call_world op reply w) as (method & endpoint & data & Hw).
  cbv zeta in Hw. destruct Hw as (_ & Hclk & Hau & Heff & Hev & Hsent & Hdis).
  rewrite Hclk, Hau, Heff, Hev, Hsent, Hdis.
  pose proof (request_spec method endpoint data reply w) as Hq. cbv zeta in Hq.
  destruct Hq as (_ & Hs & Hc & He & _ & Hevq & Hauq & Hdisq).
  rewrite Hs. split; [eauto|]. auto.
Qed.

(** X8. An operation sends exactly one request, lets the reply's latency
    pass and leaves the registered listener alone; it emits the logout
    event and reduces the controller by AUTH_LOGOUT exactly when the
    reply is a rejection with status 401, and otherwise emits nothing and
    leaves the controller's state untouched. *)
Theorem logout_signal_only_on_401 {T} (op : apiClient.Operation T) (reply : Reply.t T)
    (w : World.t) :
  let logout :=
    match Reply.outcome reply with
    | Rejected e => apiClient.is401 e
    | Fulfilled _ => false
    end in
  let w' := snd (apiClient.call op reply w) in
  (exists config, World.sent w' = World.sent w ++ [config]) /\
  World.clock w' = World.clock w + Reply.latency reply /\
  World.effect_state w' = World.effect_state w /\
  World.events w' =
    (if logout then World.events w ++ ["auth:logout"] else World.events w) /\
  World.auth w' =
    (if logout && bool_decide (is_Some (World.effect_state w))
     then authReducer (World.auth w) AUTH_LOGOUT else World.auth w) /\
  World.dispatched w' =
    (if logout && bool_decide (is_Some (World.effect_state w))
     then World.dispatched w ++ [AUTH_LOGOUT] else World.dispatched w).
Proof. exact (logout_signal_only_on_401_holds op reply w). Qed.





End GatewayMore.


(** ** Auth state controller: start-up, logout and the reducer's trace *)

Section ControllerMore.
Context {P : Platform}.
















(** X12. The three ways of logging out agree.  With the provider's
    listener registered, the controller's [logout], the client's [logout]
    and any operation answered with status 401 all leave both token-store
    entries absent and the controller in the same state: unauthenticated,
    not loading, no user, no error.  [logout] sends no request, and logging
    out again changes neither the store nor the state. *)
Theorem logout_paths_agree {T} (op : apiClient.Operation T) (latency : Z)
    (body : option ErrorBody.t) (req : bool) (msg : option string)
    (s : AuthState.t) (w0 : World.t) :
  let w := World.set_effect_state (Some s) w0 in
  let reply :=
    Reply.mk latency
      (Rejected (AxiosError.mk (Some (AxiosError.mk_response 401 body)) req msg)) in
  let by_controller := snd (AuthProvider.logout w) in
  let by_client := snd (apiClient.logout w) in
  let by_401 := snd (apiClient.call op reply w) in
  World.cookies by_controller = TokenManager.clearToken (World.cookies w) /\
  World.cookies by_client = TokenManager.clearToken (World.cookies w) /\
  World.cookies by_401 !! COOKIE_CONFIG.TOKEN_KEY = None /\
  World.cookies by_401 !! COOKIE_CONFIG.EXPIRES_KEY = None /\
  World.auth by_controller = AuthState.mk None false false None /\
  World.auth by_client = AuthState.mk None false false None /\
  World.auth by_401 = AuthState.mk None false false None /\
  World.sent by_controller = World.sent w /\
  World.events by_controller = World.events w /\
  World.cookies (snd (AuthProvider.logout by_controller)) = World.cookies by_controller /\
  World.auth (snd (AuthProvider.logout by_controller)) = World.auth by_controller.
Proof.
  cbv zeta.
  set (w := World.set_effect_state (Some s) w0).
  set (reply := Reply.mk latency
                  (Rejected (AxiosError.mk (Some (AxiosError.mk_response 401 body)) req msg))).
  pose proof (logout_signal_only_on_401_holds op reply w) as H. cbv zeta in H.
  destruct H as (_ & _ & _ & _ & Ha & _).
  destruct (call_world op reply w) as (method & endpoint & data & Hw).
  cbv zeta in Hw. destruct Hw as (Hc & _).
  pose proof (request_spec method endpoint data reply w) as Hq. cbv zeta in Hq.
  destruct Hq as (_ & _ & _ & _ & Hjar & _).
  rewrite (Hc _ eq_refl), Hjar, Ha.
  cbn [Reply.outcome reply apiClient.is401 AxiosError.response AxiosError.status].
  change (401 =? 401) with true. cbv iota.
  repeat match goal with |- _ /\ _ => split end;
    try reflexivity; try apply clearToken_lookup.
  unfold AuthProvider.logout, apiClient.clearToken, bind, dispatch.
  cbn [World.cookies World.set_cookies World.set_auth World.set_dispatched snd].
  apply clearToken_reads_absent_holds. exact 0.
Qed.

(** X13. Start-up.  When the token store holds no valid token, [checkAuth]
    sends nothing and ends unauthenticated without an error.  When it
    holds one, [checkAuth] sends one GET /auth/me carrying that token; a
    fulfilled reply ends authenticated with the returned user, and a
    rejected one removes both token-store entries and ends
    unauthenticated with a non-empty error message.  In every case the
    controller is no longer loading. *)
Theorem checkAuth_outcomes (reply : Reply.t User.t) (w : World.t) :
  let w' := snd (AuthProvider.checkAuth reply w) in
  match fst (TokenManager.getToken (World.clock w) (World.cookies w)) with
  | None =>
      World.sent w' = World.sent w /\
      World.auth w' = AuthState.mk None false false None
  | Some token =>
      World.sent w' =
        World.sent w ++
          [Config.mk GET "/auth/me" None (Some ("Bearer " +:+ token))
             (Some (World.clock w))] /\
      match Reply.outcome reply with
      | Fulfilled fetched => World.auth w' = AuthState.mk (Some fetched) true false None
      | Rejected _ =>
          World.cookies w' !! COOKIE_CONFIG.TOKEN_KEY = None /\
          World.cookies w' !! COOKIE_CONFIG.EXPIRES_KEY = None /\
          exists message,
            message <> "" /\
            World.auth w' = AuthState.mk None false false (Some message)
      end
  end.
Proof.
  cbv zeta.
  destruct (AuthProvider.checkAuth reply w) as [[] w'] eqn:Hrun. cbn [snd].
  unfold AuthProvider.checkAuth, bind in Hrun. unfold dispatch at 1 in Hrun.
  unfold AuthProvider.isAuthenticated, TokenManager.isAuthenticated in Hrun.
  cbn [World.clock World.cookies World.set_auth World.set_dispatched] in Hrun.
  pose proof (getToken_idempotent_absent_final_holds (World.clock w) (World.cookies w))
    as [Hidem _].
  destruct (TokenManager.getToken (World.clock w) (World.cookies w))
    as [[token|] jar] eqn:Hget; cbn [fst snd negb] in *.
  - set (w1 := World.set_cookies jar _) in Hrun.
    pose proof (request_spec GET "/auth/me" None reply w1) as Hq. cbv zeta in Hq.
    destruct Hq as (Hr & Hs & _ & _ & _).
    unfold apiClient.getCurrentUser in Hrun.
    destruct (apiClient.request GET "/auth/me" None reply w1) as [response w2].
    cbn [fst snd] in Hr, Hs. subst response.
    change (apiClient.isPublicEndpoint "/auth/me") with false in Hs. cbv iota in Hs.
    change (World.clock w1) with (World.clock w) in Hs.
    change (World.cookies w1) with jar in Hs.
    change (World.sent w1) with (World.sent w) in Hs.
    rewrite getAuthHeader_spec, Hidem in Hs. cbn [fst fmap option_fmap option_map] in Hs.
    destruct (Reply.outcome reply) as [fetched|e].
    + cbn in Hrun. injection Hrun as <-. cbn. split; [exact Hs | reflexivity].
    + rewrite payload_transformError in Hrun.
      unfold apiClient.clearToken, dispatch in Hrun. cbn in Hrun.
      injection Hrun as <-. cbn.
      split; [exact Hs|]. split; [apply clearToken_lookup|].
      split; [apply clearToken_lookup|].
      eexists. split; [|reflexivity]. apply or_else_nonempty. discriminate.
  - cbn in Hrun. injection Hrun as <-. cbn. split; reflexivity.
Qed.


End ControllerMore.

(** X15. Only mounting sets the closure the interval callback reads.
    [mount] leaves it holding the initial state; no gateway operation and
    no controller operation changes it afterwards; and with the initial
    state in the closure a run of the interval callback dispatches
    nothing, whatever the token store and the controller's state are. *)
Theorem interval_callback_never_dispatches :
  (forall (P : Platform) reply w,
     World.effect_state (snd (AuthProvider.mount reply w)) = Some initialState) /\
  (forall (P : Platform) T (op : apiClient.Operation T) reply,
     keeps_effect (apiClient.call op reply)) /\
  (forall (P : Platform) credentials loginReply userReply,
     keeps_effect (AuthProvider.login credentials loginReply userReply)) /\
  (forall (P : Platform) reply, keeps_effect (AuthProvider.checkAuth reply)) /\
  keeps_effect AuthProvider.logout /\
  keeps_effect AuthProvider.clearError /\
  (forall (P : Platform), keeps_effect AuthProvider.tokenCheckInterval) /\
  (forall (P : Platform) w,
     World.effect_state w = Some initialState ->
     World.auth (snd (AuthProvider.tokenCheckInterval w)) = World.auth w /\
     World.dispatched (snd (AuthProvider.tokenCheckInterval w)) = World.dispatched w).
Proof.
  assert (Hbind : forall A B (c : M A) (k : A -> M B),
             keeps_effect c -> (forall a, keeps_effect (k a)) -> keeps_effect (bind c k)).
  { intros A B c k Hc Hk w. unfold bind. specialize (Hc w).
    destruct (c w) as [a w1]. cbn [snd] in Hc. rewrite Hk. exact Hc. }
  assert (Hdispatch : forall a, keeps_effect (dispatch a)) by (intros a w; reflexivity).
  assert (Hret : forall A (a : A), keeps_effect (ret a)) by (intros A a w; reflexivity).
  assert (Hcall : forall (P : Platform) T (op : apiClient.Operation T) reply,
             keeps_effect (apiClient.call op reply)).
  { intros P T op reply w. apply (logout_signal_only_on_401_holds op reply w). }
  assert (Hclear : keeps_effect apiClient.clearToken) by (intros w; reflexivity).
  assert (Hisauth : forall (P : Platform), keeps_effect AuthProvider.isAuthenticated).
  { intros P w. unfold AuthProvider.isAuthenticated.
    destruct (TokenManager.isAuthenticated _ _). reflexivity. }
  split; [intros; apply mount_effect_state|].
  split; [exact Hcall|].
  split.
  { intros P credentials loginReply userReply. unfold AuthProvider.login.
    apply Hbind; [apply Hdispatch | intros _].
    apply Hbind; [apply (Hcall P _ (apiClient.Login credentials)) | intros response].
    destruct (ApiResponse.payload response).
    - apply Hbind; [apply (Hcall P _ apiClient.GetCurrentUser) | intros r].
      destruct (ApiResponse.payload r);
        (apply Hbind; [apply Hdispatch | intros _; apply Hret]).
    - apply Hbind; [apply Hdispatch | intros _; apply Hret]. }
  split.
  { intros P reply. unfold AuthProvider.checkAuth.
    apply Hbind; [apply Hdispatch | intros _].
    apply Hbind; [apply Hisauth | intros valid].
    destruct valid; cbn [negb]; [|apply Hdispatch].
    apply Hbind; [apply (Hcall P _ apiClient.GetCurrentUser) | intros response].
    destruct (ApiResponse.payload response); [apply Hdispatch|].
    apply Hbind; [apply Hclear | intros _; apply Hdispatch]. }
  split; [apply Hbind; [apply Hclear | intros _; apply Hdispatch]|].
  split; [apply Hdispatch|].
  split.
  { intros P w. unfold AuthProvider.tokenCheckInterval.
    destruct (World.effect_state w) as [state|] eqn:Heff; [|exact Heff].
    rewrite <- Heff.
    apply (Hbind _ _ AuthProvider.isTokenExpiringSoon); [intros w1; reflexivity | intros _].
    apply Hbind; [apply Hisauth | intros valid].
    destruct (negb valid && AuthState.isAuthenticated state);
      [apply Hdispatch | apply Hret]. }
  intros P w. apply tokenCheckInterval_stale.
Qed.

(** ** List controllers: updating, creating, deleting, loading *)

Section ListsMore.
Context {P : Platform}.

(** Replacing by id, the function both [handle...Updated] map over the
    list. *)
Lemma replace_by_id {A} (id : A -> string) (u : A) (l : list A) :
  let l' := map (fun x => if String.eqb (id x) (id u) then u else x) l in
  map id l' = map id l /\
  (forall x, In x l' -> x = u \/ (In x l /\ id x <> id u)) /\
  (forall x, In x l -> id x <> id u -> In x l') /\
  (forall x, In x l -> id x = id u -> In u l') /\
  (~ In (id u) (map id l) -> l' = l).
Proof.
  cbv zeta. induction l as [|a l (IH1 & IH2 & IH3 & IH4 & IH5)]; cbn [map].
  - repeat split; try (intros; contradiction); reflexivity.
  - destruct (String.eqb_spec (id a) (id u)) as [Heq|Hne].
    + split; [cbn; rewrite IH1, Heq; reflexivity|].
      split; [intros x [<-|Hx]; [left; reflexivity|]; destruct (IH2 x Hx) as [?|[? ?]];
              [left; assumption | right; split; [right|]; assumption]|].
      split; [intros x [<-|Hx] Hd; [contradiction|]; right; apply IH3; assumption|].
      split; [intros x _ _; left; reflexivity|].
      intros Hnot. exfalso. apply Hnot. left. exact Heq.
    + split; [cbn; rewrite IH1; reflexivity|].
      split; [intros x [<-|Hx]; [right; split; [left; reflexivity | exact Hne]|];
              destruct (IH2 x Hx) as [?|[? ?]];
              [left; assumption | right; split; [right|]; assumption]|].
      split; [intros x [<-|Hx] Hd; [left; reflexivity|]; right; apply IH3; assumption|].
      split; [intros x [<-|Hx] Hd; [contradiction|]; right; apply (IH4 x); assumption|].
      intros Hnot. f_equal. apply IH5. intros Hin. apply Hnot. right. exact Hin.
Qed.

(** X16. Updating an entry keeps the list's shape.  After
    [handleWorkspaceUpdated] and [handleSessionUpdated] the list has the
    same ids in the same order; every entry is either the updated entity
    or an old entry with a different id; every old entry with a different
    id is still there; and updating an id the list does not contain
    changes nothing. *)
Theorem update_keeps_shape :
  (forall (u : Workspace.t) (st : WorkspaceList.state),
     let l := WorkspaceList.workspaces st in
     let l' := WorkspaceList.workspaces (WorkspaceList.handleWorkspaceUpdated u st) in
     map Workspace.id l' = map Workspace.id l /\
     (forall x, In x l' -> x = u \/ (In x l /\ Workspace.id x <> Workspace.id u)) /\
     (forall x, In x l -> Workspace.id x <> Workspace.id u -> In x l') /\
     (~ In (Workspace.id u) (map Workspace.id l) -> l' = l)) /\
  (forall (u : Session.t) (st : SessionManager.state),
     let l := SessionManager.sessions st in
     let l' := SessionManager.sessions (SessionManager.handleSessionUpdated u st) in
     map Session.id l' = map Session.id l /\
     (forall x, In x l' -> x = u \/ (In x l /\ Session.id x <> Session.id u)) /\
     (forall x, In x l -> Session.id x <> Session.id u -> In x l') /\
     (~ In (Session.id u) (map Session.id l) -> l' = l)).
Proof.
  split; intros u st; cbv zeta.
  - destruct (replace_by_id Workspace.id u (WorkspaceList.workspaces st))
      as (H1 & H2 & H3 & _ & H5).
    repeat split; assumption.
  - destruct (replace_by_id Session.id u (SessionManager.sessions st))
      as (H1 & H2 & H3 & _ & H5).
    repeat split; assumption.
Qed.

Lemma filter_all {A} (p : A -> bool) (l : list A) :
  (forall x, In x l -> p x = true) -> List.filter p l = l.
Proof.
  induction l as [|a l IH]; intros H; cbn; [reflexivity|].
  rewrite (H a) by (left; reflexivity). f_equal.
  apply IH. intros x Hx. apply H. right. exact Hx.
Qed.

Lemma filter_not_id {A} (id : A -> string) (k : string) (l : list A) :
  ~ In k (map id l) -> List.filter (fun x => negb (String.eqb (id x) k)) l = l.
Proof.
  intros Hnot. apply filter_all. intros x Hx.
  apply negb_true_iff, String.eqb_neq. intros <-.
  apply Hnot, in_map, Hx.
Qed.

(** X17. Creating and deleting undo each other.  Deleting the id of an
    entry just appended by [handleWorkspaceCreated] or
    [handleSessionCreated] gives back the list as it was before, provided
    no older entry had that id; deleting an id that is not in the list
    changes nothing, so deleting twice is deleting once. *)
Theorem create_then_delete :
  (forall (new : Workspace.t) (st : WorkspaceList.state),
     ~ In (Workspace.id new) (map Workspace.id (WorkspaceList.workspaces st)) ->
     WorkspaceList.workspaces
       (WorkspaceList.handleWorkspaceDeleted (Workspace.id new)
          (WorkspaceList.handleWorkspaceCreated new st))
       = WorkspaceList.workspaces st) /\
  (forall (new : Session.t) (st : SessionManager.state),
     ~ In (Session.id new) (map Session.id (SessionManager.sessions st)) ->
     SessionManager.sessions
       (SessionManager.handleSessionDeleted (Session.id new)
          (SessionManager.handleSessionCreated new st))
       = SessionManager.sessions st) /\
  (forall (id : string) (st : WorkspaceList.state),
     WorkspaceList.workspaces
       (WorkspaceList.handleWorkspaceDeleted id (WorkspaceList.handleWorkspaceDeleted id st))
       = WorkspaceList.workspaces (WorkspaceList.handleWorkspaceDeleted id st)) /\
  (forall (id : string) (st : SessionManager.state),
     SessionManager.sessions
       (SessionManager.handleSessionDeleted id (SessionManager.handleSessionDeleted id st))
       = SessionManager.sessions (SessionManager.handleSessionDeleted id st)).
Proof.
  assert (Hidem : forall A (p : A -> bool) (l : list A),
             List.filter p (List.filter p l) = List.filter p l).
  { intros A p l. apply filter_all. intros x Hx. apply filter_In in Hx. tauto. }
  split; [|split; [|split]].
  - intros new st Hfresh. cbn. rewrite List.filter_app. cbn.
    rewrite String.eqb_refl. cbn. rewrite app_nil_r.
    apply (filter_not_id Workspace.id). exact Hfresh.
  - intros new st Hfresh. cbn. rewrite List.filter_app. cbn.
    rewrite String.eqb_refl. cbn. rewrite app_nil_r.
    apply (filter_not_id Session.id). exact Hfresh.
  - intros id st. cbn. apply Hidem.
  - intros id st. cbn. apply Hidem.
Qed.

(** X18. Loading.  [loadWorkspaces] and [loadSessions] for a selected
    workspace send exactly one GET, to /workspaces and to
    /workspaces/<id>/sessions, and always end with the loading flag off,
    whether the call succeeded or not; [handleRefresh] in addition ends
    with the refreshing flag off.  With no workspace selected,
    [loadSessions] and the bulk handlers send nothing and change
    nothing. *)
Theorem load_requests_and_flags :
  (forall reply (st : WorkspaceList.state) w,
     let run := WorkspaceList.loadWorkspaces reply st w in
     WorkspaceList.loading (fst run) = false /\
     exists config,
       World.sent (snd run) = World.sent w ++ [config] /\
       Config.method config = GET /\ Config.url config = "/workspaces") /\
  (forall reply (st : WorkspaceList.state) w,
     let run := WorkspaceList.handleRefresh reply st w in
     WorkspaceList.loading (fst run) = false /\
     WorkspaceList.refreshing (fst run) = false /\
     WorkspaceList.workspaces (fst run)
       = WorkspaceList.workspaces (fst (WorkspaceList.loadWorkspaces reply st w))) /\
  (forall workspace silent reply (st : SessionManager.state) w,
     let run := SessionManager.loadSessions (Some workspace) silent reply st w in
     SessionManager.loading (fst run) = false /\
     exists config,
       World.sent (snd run) = World.sent w ++ [config] /\
       Config.method config = GET /\
       Config.url config = "/workspaces/" +:+ Workspace.id workspace +:+ "/sessions") /\
  (forall silent reply replies (st : SessionManager.state) w,
     SessionManager.loadSessions None silent reply st w = (st, w) /\
     SessionManager.handleStartAll None replies st w = (st, w) /\
     SessionManager.handleStopAll None replies st w = (st, w)).
Proof.
  split; [|split; [|split]].
  - intros reply st w. cbv zeta.
    unfold WorkspaceList.loadWorkspaces, bind, ret, apiClient.getWorkspaces.
    pose proof (request_sent GET "/workspaces" None reply w) as (c & Hs & Hm & Hu & _).
    destruct (apiClient.request GET "/workspaces" None reply w) as [response w1].
    cbn [fst snd] in *. split; [reflexivity|]. eauto.
  - intros reply st w. cbv zeta.
    unfold WorkspaceList.handleRefresh, WorkspaceList.loadWorkspaces, bind, ret.
    destruct (apiClient.getWorkspaces reply w) as [response w1]. cbn.
    destruct (ApiResponse.payload response); repeat split; reflexivity.
  - intros workspace silent reply st w. cbv zeta.
    unfold SessionManager.loadSessions, bind, ret, apiClient.getSessions.
    pose proof (request_sent GET ("/workspaces/" +:+ Workspace.id workspace +:+ "/sessions")
                  None reply w) as (c & Hs & Hm & Hu & _).
    destruct (apiClient.request GET _ None reply w) as [response w1].
    cbn [fst snd] in *. split; [reflexivity|]. eauto.
  - intros. repeat split; reflexivity.
Qed.

End ListsMore.

(** ** Session list: bulk start, counts, cards and the create modal *)

Section SessionsMore.
Context {P : Platform}.

Lemma apply_replies_running (replies : nat -> Reply.t Session.t)
    (selected : list Session.t) :
  forall (k : nat) (l : list Session.t),
    (forall j s, selected !! j = Some s ->
                 exists u, Reply.outcome (replies (k + j)%nat) = Fulfilled u /\
                           Session.id u = Session.id s /\
                           Session.status u = Status.running) ->
    (forall x, In x l -> Session.status x = Status.stopped ->
               In (Session.id x) (map Session.id selected)) ->
    (forall x, In x (apply_replies replies k selected l) ->
               Session.status x <> Status.stopped) /\
    map Session.id (apply_replies replies k selected l) = map Session.id l.
Proof.
  induction selected as [|s rest IH]; intros k l Hrep Hcov; cbn [apply_replies].
  - split; [|reflexivity]. intros x Hx Hst. exact (Hcov x Hx Hst).
  - destruct (Hrep 0%nat s eq_refl) as (u & Hu & Hid & Hrun).
    rewrite Nat.add_0_r in Hu. rewrite Hu.
    destruct (replace_by_id Session.id u l) as (Hids & Hin & _).
    cbv zeta in Hids, Hin.
    destruct (IH (S k)
                (map (fun session =>
                        if String.eqb (Session.id session) (Session.id u)
                        then u else session) l)) as [Hnone Hmap].
    + intros j s' Hj. rewrite Nat.add_succ_l, <- Nat.add_succ_r.
      apply Hrep. exact Hj.
    + intros x Hx Hst. destruct (Hin x Hx) as [->|[Hxl Hne]].
      * rewrite Hrun in Hst. discriminate.
      * destruct (Hcov x Hxl Hst) as [Heq|Hrest]; [|exact Hrest].
        exfalso. apply Hne. rewrite Hid. symmetry. exact Heq.
    + split; [exact Hnone | rewrite Hmap; exact Hids].
Qed.

Lemma existsb_false_iff {A} (p : A -> bool) (l : list A) :
  existsb p l = false <-> forall x, In x l -> p x = false.
Proof.
  induction l as [|a l IH]; cbn.
  - split; [intros _ x [] | reflexivity].
  - rewrite orb_false_iff, IH. split.
    + intros [Ha Hl] x [<-|Hx]; auto.
    + intros H. split; [apply H; left; reflexivity | intros x Hx; apply H; right; exact Hx].
Qed.

(** X19. Start All finishes the job when the backend cooperates.  If each
    start call is answered with the session of the same id in status
    running, then afterwards the local list has the same ids in the same
    order and no session in status stopped: the Start All button is no
    longer shown, and Start All again would send nothing. *)
Theorem startAll_leaves_none_stopped (workspace : Workspace.t)
    (replies : nat -> Reply.t Session.t) (st : SessionManager.state) (w : World.t) :
  (forall k s,
     List.filter (fun session => Status.eqb (Session.status session) Status.stopped)
       (SessionManager.sessions st) !! k = Some s ->
     exists u, Reply.outcome (replies k) = Fulfilled u /\
               Session.id u = Session.id s /\ Session.status u = Status.running) ->
  let st' := fst (SessionManager.handleStartAll (Some workspace) replies st w) in
  (forall x, In x (SessionManager.sessions st') -> Session.status x <> Status.stopped) /\
  map Session.id (SessionManager.sessions st') = map Session.id (SessionManager.sessions st) /\
  SessionManager.showStartAll st' = false /\
  (forall replies' w',
     SessionManager.handleStartAll (Some workspace) replies' st' w' = (st', w')).
Proof.
  intros Hrep. cbv zeta.
  set (st' := fst (SessionManager.handleStartAll (Some workspace) replies st w)).
  set (stopped := List.filter
                    (fun session => Status.eqb (Session.status session) Status.stopped)
                    (SessionManager.sessions st)) in *.
  assert (Hsess : SessionManager.sessions st'
                  = apply_replies replies 0 stopped (SessionManager.sessions st)).
  { apply (forEachSession_spec
             (fun id => "/workspaces/" +:+ Workspace.id workspace +:+ "/sessions/"
                          +:+ id +:+ "/start")
             (apiClient.startSession (Workspace.id workspace)) replies stopped
             ltac:(reflexivity) 0%nat st w). }
  destruct (apply_replies_running replies stopped 0%nat (SessionManager.sessions st))
    as [Hnone Hids].
  { intros j s Hj. apply Hrep. exact Hj. }
  { intros x Hx Hst. apply in_map. apply filter_In. split; [exact Hx|].
    rewrite Hst. reflexivity. }
  rewrite <- Hsess in Hnone, Hids.
  assert (Hall : forall x, In x (SessionManager.sessions st') ->
                           Status.eqb (Session.status x) Status.stopped = false).
  { intros x Hx. specialize (Hnone x Hx).
    destruct (Session.status x); try reflexivity. contradiction. }
  split; [exact Hnone|]. split; [exact Hids|].
  split; [apply existsb_false_iff; exact Hall|].
  intros replies' w'. unfold SessionManager.handleStartAll.
  rewrite (filter_none _ _ Hall). reflexivity.
Qed.

Lemma Status_name_inj (a b : Status.t) : Status.name a = Status.name b -> a = b.
Proof. destruct a, b; cbn; intros H; try reflexivity; discriminate. Qed.

Lemma Status_eqb_eq (a b : Status.t) : Status.eqb a b = true <-> a = b.
Proof. destruct a, b; cbn; split; intros H; try reflexivity; discriminate. Qed.

Lemma statusCounts_fold (status : Status.t) (l : list Session.t) :
  forall acc : gmap string nat,
    default 0%nat
      (fold_left
         (fun acc session =>
            <[Status.name (Session.status session) :=
                (default 0%nat (acc !! Status.name (Session.status session)) + 1)%nat]> acc)
         l acc !! Status.name status)
    = (default 0%nat (acc !! Status.name status)
       + length (List.filter (fun s => Status.eqb (Session.status s) status) l))%nat.
Proof.
  induction l as [|a l IH]; intros acc; cbn [fold_left List.filter length].
  - rewrite Nat.add_0_r. reflexivity.
  - rewrite IH. rewrite lookup_insert.
    destruct (decide (Status.name (Session.status a) = Status.name status)) as [Heq|Hne].
    + apply Status_name_inj in Heq. rewrite Heq.
      rewrite (proj2 (Status_eqb_eq status status) eq_refl).
      cbn [default length]. unfold id. lia.
    + destruct (Status.eqb (Session.status a) status) eqn:Hb.
      * apply Status_eqb_eq in Hb. rewrite Hb in Hne. contradiction.
      * reflexivity.
Qed.

(** X20. The Status Summary counts what the lists hold.  For each status
    the count shown is the number of sessions in that status; the four
    counts add up to the total; and the Start All and Stop All buttons are
    rendered exactly when the Stopped and Running counts are not zero. *)
Theorem status_summary_counts (st : SessionManager.state) :
  let sessions := SessionManager.sessions st in
  (forall status,
     SessionManager.shownCount sessions status
       = length (List.filter (fun s => Status.eqb (Session.status s) status) sessions)) /\
  (SessionManager.shownCount sessions Status.running
   + SessionManager.shownCount sessions Status.stopped
   + SessionManager.shownCount sessions Status.pending
   + SessionManager.shownCount sessions Status.error)%nat = length sessions /\
  (SessionManager.showStartAll st = true <->
   (0 < SessionManager.shownCount sessions Status.stopped)%nat) /\
  (SessionManager.showStopAll st = true <->
   (0 < SessionManager.shownCount sessions Status.running)%nat).
Proof.
  cbv zeta.
  assert (Hcount : forall status,
             SessionManager.shownCount (SessionManager.sessions st) status
             = length (List.filter (fun s => Status.eqb (Session.status s) status)
                         (SessionManager.sessions st))).
  { intros status. unfold SessionManager.shownCount, SessionManager.statusCounts.
    rewrite statusCounts_fold. rewrite lookup_empty. reflexivity. }
  assert (Hshow : forall status l,
             existsb (fun s => Status.eqb (Session.status s) status) l = true <->
             (0 < length (List.filter (fun s => Status.eqb (Session.status s) status) l))%nat).
  { intros status l. induction l as [|a l IH]; cbn.
    - split; [discriminate | lia].
    - destruct (Status.eqb (Session.status a) status); cbn; [split; [lia | reflexivity]|].
      exact IH. }
  split; [exact Hcount|]. split; [|split].
  - rewrite !Hcount. generalize (SessionManager.sessions st). clear.
    intros l. induction l as [|a l IH]; [reflexivity|].
    cbn [List.filter length]. destruct (Session.status a); cbn [Status.eqb length]; lia.
  - rewrite Hcount. apply Hshow.
  - rewrite Hcount. apply Hshow.
Qed.

(** One card action that sends a session and applies the answer. *)
Lemma card_update_run (path : string) (fallback : string)
    (reply : Reply.t Session.t) (card : SessionCard.state)
    (list : SessionManager.state) (w : World.t) :
  let run :=
    (let* response := apiClient.request POST path None reply in
     match ApiResponse.payload response with
     | Some data =>
         ret (None, SessionCard.mk (SessionCard.showMenu card) None,
              SessionManager.handleSessionUpdated data list)
     | None =>
         ret (Some (ApiResponse.message_or response fallback),
              SessionCard.mk (SessionCard.showMenu card) None, list)
     end) w in
  fallback <> "" ->
  match Reply.outcome reply with
  | Fulfilled data =>
      fst run = (None, SessionCard.mk (SessionCard.showMenu card) None,
                 SessionManager.handleSessionUpdated data list)
  | Rejected _ =>
      exists message,
        message <> "" /\
        fst run = (Some message, SessionCard.mk (SessionCard.showMenu card) None, list)
  end.
Proof.
  cbv zeta. intros Hf. unfold bind, ret.
  pose proof (request_spec POST path None reply w) as Hq. cbv zeta in Hq.
  destruct Hq as (Hr & _).
  destruct (apiClient.request POST path None reply w) as [response w1].
  cbn [fst] in Hr. subst response.
  destruct (Reply.outcome reply) as [data|e]; [reflexivity|].
  rewrite payload_transformError. cbn [fst].
  eexists. split; [|reflexivity]. apply or_else_nonempty. exact Hf.
Qed.

(** X21. The session card's actions.  A fulfilled start or stop hands the
    returned session to the list, which replaces the entries of its id; a
    rejected one shows an alert with a non-empty message and leaves the
    list alone; either way the card's busy marker is cleared.  A
    confirmed delete that succeeds removes the entries of that id; a
    failed one alerts and leaves the list alone; an unconfirmed delete
    sends nothing and changes nothing.  A session is never offered both
    Start and Stop. *)
Theorem session_card_actions (workspace : Workspace.t) (session : Session.t)
    (card : SessionCard.state) (list : SessionManager.state) (w : World.t) :
  (forall reply,
     match Reply.outcome reply with
     | Fulfilled data =>
         fst (SessionCard.handleStart workspace session reply card list w)
           = (None, SessionCard.mk (SessionCard.showMenu card) None,
              SessionManager.handleSessionUpdated data list) /\
         fst (SessionCard.handleStop workspace session reply card list w)
           = (None, SessionCard.mk (SessionCard.showMenu card) None,
              SessionManager.handleSessionUpdated data list)
     | Rejected _ =>
         (exists message,
            message <> "" /\
            fst (SessionCard.handleStart workspace session reply card list w)
              = (Some message, SessionCard.mk (SessionCard.showMenu card) None, list)) /\
         (exists message,
            message <> "" /\
            fst (SessionCard.handleStop workspace session reply card list w)
              = (Some message, SessionCard.mk (SessionCard.showMenu card) None, list))
     end) /\
  (forall reply,
     match Reply.outcome reply with
     | Fulfilled _ =>
         fst (SessionCard.handleDelete true workspace session reply card list w)
           = (None, SessionCard.mk false None,
              SessionManager.handleSessionDeleted (Session.id session) list)
     | Rejected _ =>
         exists message,
           message <> "" /\
           fst (SessionCard.handleDelete true workspace session reply card list w)
             = (Some message, SessionCard.mk false None, list)
     end) /\
  (forall reply,
     SessionCard.handleDelete false workspace session reply card list w
       = (None, card, list, w)) /\
  SessionCard.canStart session && SessionCard.canStop session = false.
Proof.
  split; [|split; [|split]].
  - intros reply.
    pose proof (card_update_run
                  ("/workspaces/" +:+ Workspace.id workspace +:+ "/sessions/"
                     +:+ Session.id session +:+ "/start")
                  "Failed to start session" reply card list w) as Hstart.
    pose proof (card_update_run
                  ("/workspaces/" +:+ Workspace.id workspace +:+ "/sessions/"
                     +:+ Session.id session +:+ "/stop")
                  "Failed to stop session" reply card list w) as Hstop.
    cbv zeta in Hstart, Hstop.
    specialize (Hstart ltac:(discriminate)). specialize (Hstop ltac:(discriminate)).
    destruct (Reply.outcome reply); split; assumption.
  - intros reply. unfold SessionCard.handleDelete. cbn [negb]. unfold bind, ret.
    pose proof (call_result (apiClient.DeleteSession (Workspace.id workspace)
                               (Session.id session)) reply w) as Hr.
    cbn [apiClient.call] in Hr.
    destruct (apiClient.deleteSession (Workspace.id workspace) (Session.id session) reply w)
      as [response w1].
    cbn [fst] in Hr. subst response.
    destruct (Reply.outcome reply) as [[]|e]; [reflexivity|].
    assert (Hs : ApiResponse.success (@apiClient.transformError unit e) = false).
    { unfold apiClient.transformError.
      destruct (AxiosError.response e); [|destruct (AxiosError.request e)]; reflexivity. }
    rewrite Hs. cbn [fst].
    eexists. split; [|reflexivity].
    unfold ApiResponse.message_or. apply or_else_nonempty. discriminate.
  - reflexivity.
  - unfold SessionCard.canStart, SessionCard.canStop.
    destruct (Session.status session); reflexivity.
Qed.

(** X22. Creating a session.  A valid submission sends one POST to
    /workspaces/<id>/sessions whose body has the form's name and container
    settings and always the status stopped.  A fulfilled reply appends the
    returned session to the list and closes the modal; a rejected one
    leaves the list alone and shows a non-empty message under "submit"; a
    submission that fails validation sends nothing. *)
Theorem create_session_submit (name image : string) (ports : list Z)
    (environment : gmap string string) (workspace : Workspace.t)
    (modal : CreateSessionModal.state) (list : SessionManager.state) (w : World.t) :
  (forall reply,
     let run := CreateSessionModal.handleSubmit ∅ name image ports environment
                  workspace reply modal list w in
     (exists config,
        World.sent (snd run) = World.sent w ++ [config] /\
        Config.method config = POST /\
        Config.url config = "/workspaces/" +:+ Workspace.id workspace +:+ "/sessions" /\
        Config.data config =
          Some (SessionData
                  (Session.mk_input name Status.stopped
                     (Some (ContainerInfo.mk image ports environment))))) /\
     match Reply.outcome reply with
     | Fulfilled created =>
         SessionManager.sessions (snd (fst run))
           = SessionManager.sessions list ++ [created] /\
         SessionManager.showCreateModal (snd (fst run)) = false
     | Rejected _ =>
         snd (fst run) = list /\
         exists message,
           message <> "" /\
           CreateSessionModal.errors (fst (fst run)) !! "submit" = Some message
     end) /\
  (forall newErrors reply,
     size newErrors <> 0%nat ->
     CreateSessionModal.handleSubmit newErrors name image ports environment
       workspace reply modal list w
       = (CreateSessionModal.mk (CreateSessionModal.loading modal) newErrors, list, w)).
Proof.
  split.
  - intros reply. cbv zeta. unfold CreateSessionModal.handleSubmit.
    change (size (∅ : gmap string string)) with 0%nat. cbn [Nat.eqb negb].
    unfold bind, ret, apiClient.createSession.
    set (body := Some (SessionData _)).
    pose proof (request_spec POST
                  ("/workspaces/" +:+ Workspace.id workspace +:+ "/sessions")
                  body reply w) as Hq.
    cbv zeta in Hq. destruct Hq as (Hr & _).
    pose proof (request_sent POST
                  ("/workspaces/" +:+ Workspace.id workspace +:+ "/sessions")
                  body reply w) as Hsent.
    destruct (apiClient.request POST _ body reply w) as [response w1].
    cbn [fst snd] in Hr, Hsent. subst response.
    destruct (Reply.outcome reply) as [created|e].
    + cbn. split; [exact Hsent|]. split; reflexivity.
    + rewrite payload_transformError. cbn [fst snd].
      split; [exact Hsent|]. split; [reflexivity|].
      eexists. split; [|apply lookup_singleton_eq].
      apply or_else_nonempty. discriminate.
  - intros newErrors reply Hsize. unfold CreateSessionModal.handleSubmit.
    destruct (Nat.eqb_spec (size newErrors) 0); [contradiction | reflexivity].
Qed.

End SessionsMore.

Lemma startAll_leaves_none_stopped_witness :
  (forall k s,
     List.filter (fun session => Status.eqb (Session.status session) Status.stopped)
       (SessionManager.sessions mock_ws1_list) !! k = Some s ->
     exists u, Reply.outcome (mock_start_sess2 k) = Fulfilled u /\
               Session.id u = Session.id s /\ Session.status u = Status.running) /\
  SessionManager.showStartAll
    (fst (@SessionManager.handleStartAll sample_platform
            (Some (Workspace.mk "ws-1" "Development Environment" None "" ""))
            mock_start_sess2 mock_ws1_list (fresh_world valid_jar))) = false.
Proof.
  assert (H : forall k s,
     List.filter (fun session => Status.eqb (Session.status session) Status.stopped)
       (SessionManager.sessions mock_ws1_list) !! k = Some s ->
     exists u, Reply.outcome (mock_start_sess2 k) = Fulfilled u /\
               Session.id u = Session.id s /\ Session.status u = Status.running).
  { intros k s Hk. destruct k as [|k]; vm_compute in Hk; [|discriminate].
    injection Hk as <-. eexists. split; [vm_compute; reflexivity|].
    split; reflexivity. }
  split; [exact H|].
  apply (@startAll_leaves_none_stopped sample_platform
           (Workspace.mk "ws-1" "Development Environment" None "" "")
           mock_start_sess2 mock_ws1_list (fresh_world valid_jar) H).
Defined.

(** ** The development backend, alone and under the client *)

Section MockMore.
Context {P : Platform}.

(** X23. The development backend's credentials and token.  The login
    handler answers with a token exactly for user admin and password
    password, valid for 24 hours from its clock, and with status 401
    otherwise; the current-user handler accepts exactly the header made
    of the issued token type, a space and the issued token, and answers
    401 to every other header and to a missing one. *)
Theorem mock_auth_roundtrip (now : Z) (body : LoginRequest.t) :
  match MockServer.post_auth_internal now body with
  | MockServer.Json a =>
      LoginRequest.user body = "admin" /\ LoginRequest.pass body = "password" /\
      AuthResponse.expires_at a = Date_toISOString (now + 24 * 60 * 60 * 1000) /\
      exists u,
        MockServer.get_auth_me
          (Some (AuthResponse.token_type a +:+ " " +:+ AuthResponse.token a))
          = MockServer.Json u /\
        User.username u = "admin"
  | MockServer.StatusJson code _ =>
      code = 401 /\
      ~ (LoginRequest.user body = "admin" /\ LoginRequest.pass body = "password")
  end /\
  (forall header,
     (exists u, MockServer.get_auth_me header = MockServer.Json u) <->
     header = Some "Bearer mock-jwt-token-12345") /\
  (forall header,
     header <> Some "Bearer mock-jwt-token-12345" ->
     exists b, MockServer.get_auth_me header = MockServer.StatusJson 401 b).
Proof.
  split; [|split].
  - unfold MockServer.post_auth_internal.
    destruct (String.eqb_spec (LoginRequest.user body) "admin") as [Hu|Hu];
      destruct (String.eqb_spec (LoginRequest.pass body) "password") as [Hp|Hp];
      cbn [andb]; try (split; [reflexivity | tauto]).
    split; [exact Hu|]. split; [exact Hp|]. split; [reflexivity|].
    eexists. split; reflexivity.
  - intros header. unfold MockServer.get_auth_me.
    destruct header as [h|].
    + destruct (String.eqb_spec h "Bearer mock-jwt-token-12345") as [->|Hne].
      * split; [reflexivity | eauto].
      * split; [intros [u [=]] | intros [= ->]; contradiction].
    + split; [intros [u [=]] | discriminate].
  - intros header Hne. unfold MockServer.get_auth_me.
    destruct header as [h|]; [|eauto].
    destruct (String.eqb_spec h "Bearer mock-jwt-token-12345") as [->|_]; [|eauto].
    contradiction.
Qed.



End MockMore.


Section MockData.
Context {P : Platform}.

(** X25. The backend's workspace list.  A created workspace is answered
    back with the submitted name and is the last entry of the next
    listing; deleting its id restores the listing when no older workspace
    had that id.  Deleting always answers success, changes nothing when
    the id is unknown, and never touches the stored sessions: the
    sessions of a deleted workspace are still served. *)
Theorem mock_workspace_crud (now : Z) (body : Workspace.input) (d : MockServer.db) :
  (exists created,
     snd (MockServer.post_workspaces now body d) = MockServer.Json created /\
     Workspace.name created = Workspace.in_name body /\
     Workspace.id created = "ws-" +:+ Js.toString now /\
     snd (MockServer.get_workspaces (fst (MockServer.post_workspaces now body d)))
       = MockServer.Json (MockServer.workspaces d ++ [created]) /\
     (~ In (Workspace.id created) (map Workspace.id (MockServer.workspaces d)) ->
      MockServer.workspaces
        (fst (MockServer.delete_workspace (Workspace.id created)
                (fst (MockServer.post_workspaces now body d))))
        = MockServer.workspaces d)) /\
  (forall id,
     snd (MockServer.delete_workspace id d) = MockServer.Json tt /\
     MockServer.sessions (fst (MockServer.delete_workspace id d)) = MockServer.sessions d /\
     snd (MockServer.get_sessions id (fst (MockServer.delete_workspace id d)))
       = snd (MockServer.get_sessions id d) /\
     (forall x, In x (MockServer.workspaces (fst (MockServer.delete_workspace id d))) ->
                Workspace.id x <> id) /\
     (~ In id (map Workspace.id (MockServer.workspaces d)) ->
      MockServer.workspaces (fst (MockServer.delete_workspace id d))
        = MockServer.workspaces d)).
Proof.
  split.
  - eexists. split; [reflexivity|]. split; [reflexivity|]. split; [reflexivity|].
    split; [reflexivity|].
    intros Hfresh. cbn. rewrite List.filter_app. cbn.
    rewrite String.eqb_refl. cbn. rewrite app_nil_r.
    apply (filter_not_id Workspace.id). exact Hfresh.
  - intros id. split; [reflexivity|]. split; [reflexivity|]. split; [reflexivity|].
    split.
    + intros x Hx. cbn in Hx. apply filter_In in Hx as [_ Hx].
      apply negb_true_iff, String.eqb_neq in Hx. exact Hx.
    + intros Hnot. cbn. apply (filter_not_id Workspace.id). exact Hnot.
Qed.





End MockData.
